(** * Logged bandit feedback: ingestion and counterfactual estimation

    A shallow embedding of [SimpleNN/data.py] (the [Sample] record, the
    dictionary vectoriser, the pool-grouped [BatchIterator] and
    [CriteoDataset.load]) and of the estimator of [SimpleNN/__main__.py]
    ([run_test_set], [calc_loss]), with the properties of the written
    specification stated and settled against that code.

    Conventions of the embedding:
    - Python exceptions are the [Raise] branch of [result];
    - a [str] is a [string] of 8-bit characters (code points 0..255);
    - a Python [int] is a [Z];
    - a float (Python float or tensor entry) is an [fval]: an exact rational
      or one of the IEEE special values.  Rounding to a binary format,
      overflow and the sign of zero are not represented;
    - a 1-d tensor is a [list fval];
    - the JSON feature dictionary is a [gmap string (gmap string Z)];
    - the file system is a [gmap string file]. *)

From Stdlib Require Import ZArith QArith Qcanon Qround String Ascii List Lia.
From Stdlib Require Import DecimalString Field Lqa.
From stdpp Require Import base option list gmap strings.

#[local] Open Scope string_scope.
#[local] Open Scope list_scope.
#[local] Open Scope Z_scope.

(** ** Exceptions *)

Inductive exn : Type :=
| ValueError
| IndexError
| KeyError
| TypeError
| AttributeError
| OverflowError
| ZeroDivisionError
| FileNotFoundError
| UnpicklingError.

Inductive result (A : Type) : Type :=
| Ok (a : A)
| Raise (e : exn).
Arguments Ok {A} a.
Arguments Raise {A} e.

#[global] Instance result_ret : MRet result := fun A a => Ok a.
#[global] Instance result_bind : MBind result := fun A B k r =>
  match r with
  | Ok a => k a
  | Raise e => Raise e
  end.

Definition is_ok {A} (r : result A) : bool :=
  match r with Ok _ => true | Raise _ => false end.

(** A [for] loop whose body may raise: the first exception ends the loop. *)
Fixpoint for_each {S X} (body : S -> X -> result S) (xs : list X) (st : S)
  : result S :=
  match xs with
  | [] => Ok st
  | x :: xs' => st' ← body st x; for_each body xs' st'
  end.

(** A list comprehension / append loop whose element computation may raise. *)
Fixpoint map_result {X Y} (f : X -> result Y) (xs : list X) : result (list Y) :=
  match xs with
  | [] => Ok []
  | x :: xs' => y ← f x; ys ← map_result f xs'; Ok (y :: ys)
  end.

(** ** Python string primitives *)

Module Py.

(** [str.isspace] on one character, for code points 0..255. *)
Definition isspace (c : ascii) : bool :=
  let n := Z.of_N (N_of_ascii c) in
  ((9 <=? n) && (n <=? 13)) || ((28 <=? n) && (n <=? 32))
  || (n =? 133) || (n =? 160).

(** [needle in s] for strings. *)
Fixpoint str_in (needle s : string) : bool :=
  if String.prefix needle s then true
  else match s with
       | EmptyString => false
       | String _ s' => str_in needle s'
       end.

(** [s.split(sep)] for a one-character separator: every occurrence splits,
    empty pieces are kept, and the result is never empty. *)
Fixpoint split (sep : ascii) (s : string) : list string :=
  match s with
  | EmptyString => [EmptyString]
  | String c s' =>
      if Ascii.eqb c sep then EmptyString :: split sep s'
      else match split sep s' with
           | h :: t => String c h :: t
           | [] => [String c EmptyString]
           end
  end.

(** The same with a predicate deciding the separators. *)
Fixpoint split_where (p : ascii -> bool) (s : string) : list string :=
  match s with
  | EmptyString => [EmptyString]
  | String c s' =>
      if p c then EmptyString :: split_where p s'
      else match split_where p s' with
           | h :: t => String c h :: t
           | [] => [String c EmptyString]
           end
  end.

Definition nonempty (s : string) : bool :=
  match s with EmptyString => false | String _ _ => true end.

(** [s.split()]: runs of whitespace separate, no empty piece is returned. *)
Definition split_ws (s : string) : list string :=
  List.filter nonempty (split_where isspace s).

Fixpoint lstrip (s : string) : string :=
  match s with
  | EmptyString => EmptyString
  | String c s' => if isspace c then lstrip s' else s
  end.

Fixpoint rstrip (s : string) : string :=
  match s with
  | EmptyString => EmptyString
  | String c s' =>
      match rstrip s' with
      | EmptyString => if isspace c then EmptyString else String c EmptyString
      | r => String c r
      end
  end.

(** [s.strip()]. *)
Definition strip (s : string) : string := rstrip (lstrip s).

Definition digit_val (c : ascii) : option Z :=
  let n := Z.of_N (N_of_ascii c) in
  if (48 <=? n) && (n <=? 57) then Some (n - 48) else None.

Fixpoint digits_val (acc : Z) (s : string) : option Z :=
  match s with
  | EmptyString => Some acc
  | String c s' =>
      match digit_val c with
      | Some d => digits_val (10 * acc + d) s'
      | None => None
      end
  end.

Definition unsigned_val (s : string) : result Z :=
  match s with
  | EmptyString => Raise ValueError
  | _ => match digits_val 0 s with
         | Some z => Ok z
         | None => Raise ValueError
         end
  end.

(** [int(s)] in base 10: surrounding whitespace, an optional sign, then at
    least one decimal digit.  (Digit-group underscores are not covered: no
    argument of [int] in this program can contain one.) *)
Definition int (s : string) : result Z :=
  match strip s with
  | String "+"%char r => unsigned_val r
  | String "-"%char r => z ← unsigned_val r; Ok (- z)
  | s' => unsigned_val s'
  end.

(** [str(z)] for an integer. *)
Definition str (z : Z) : string := NilZero.string_of_int (Z.to_int z).

(** [l[i]] with Python's negative indices. *)
Definition getitem {A} (l : list A) (i : Z) : result A :=
  let n := Z.of_nat (length l) in
  let j := if i <? 0 then i + n else i in
  if (0 <=? j) && (j <? n) then
    match l !! Z.to_nat j with
    | Some x => Ok x
    | None => Raise IndexError
    end
  else Raise IndexError.

(** [l[i] = x] with Python's negative indices. *)
Definition setitem {A} (l : list A) (i : Z) (x : A) : result (list A) :=
  let n := Z.of_nat (length l) in
  let j := if i <? 0 then i + n else i in
  if (0 <=? j) && (j <? n) then Ok (<[Z.to_nat j := x]> l)
  else Raise IndexError.

End Py.

(** ** Floating-point values

    A finite value is an exact rational in canonical form ([Qc]), so that
    equal values are equal terms; [PInf], [NInf] and [NaN] behave as in
    IEEE 754. *)

Inductive fval : Type :=
| Fin (q : Qc)
| PInf
| NInf
| NaN.

Definition of_Z (z : Z) : fval := Fin (Q2Qc (inject_Z z)).

Definition is_finite (x : fval) : bool :=
  match x with Fin _ => true | _ => false end.

Definition fadd (x y : fval) : fval :=
  match x, y with
  | NaN, _ | _, NaN => NaN
  | Fin a, Fin b => Fin (a + b)%Qc
  | PInf, NInf | NInf, PInf => NaN
  | PInf, _ | _, PInf => PInf
  | NInf, _ | _, NInf => NInf
  end.

Definition fneg (x : fval) : fval :=
  match x with
  | Fin a => Fin (- a)%Qc
  | PInf => NInf
  | NInf => PInf
  | NaN => NaN
  end.

(** The infinity (or NaN) whose sign is the sign of [a]. *)
Definition inf_signed (a : Qc) : fval :=
  match (a ?= 0)%Qc with
  | Gt => PInf
  | Lt => NInf
  | Eq => NaN
  end.

Definition fmul (x y : fval) : fval :=
  match x, y with
  | NaN, _ | _, NaN => NaN
  | Fin a, Fin b => Fin (a * b)%Qc
  | Fin a, PInf | PInf, Fin a => inf_signed a
  | Fin a, NInf | NInf, Fin a => fneg (inf_signed a)
  | PInf, PInf | NInf, NInf => PInf
  | PInf, NInf | NInf, PInf => NInf
  end.

(** Tensor division: a zero divisor gives an infinity or NaN, never an
    exception. *)
Definition fdiv (x y : fval) : fval :=
  match x, y with
  | NaN, _ | _, NaN => NaN
  | Fin a, Fin b =>
      if decide (b = 0%Qc) then inf_signed a else Fin (a / b)%Qc
  | Fin _, (PInf | NInf) => Fin 0%Qc
  | (PInf | NInf), (PInf | NInf) => NaN
  | PInf, Fin b => match (b ?= 0)%Qc with Lt => NInf | _ => PInf end
  | NInf, Fin b => match (b ?= 0)%Qc with Lt => PInf | _ => NInf end
  end.

(** [x == 1] on one tensor entry. *)
Definition feq_one (x : fval) : bool :=
  match x with
  | Fin a => bool_decide (a = 1%Qc)
  | _ => false
  end.

(** [t.sum()]. *)
Definition tsum (t : list fval) : fval := foldr fadd (Fin 0%Qc) t.

(** [round(x)] for a Python float: ties go to the even neighbour; an
    infinity raises [OverflowError] and NaN raises [ValueError]. *)
Definition round_half_even (q : Q) : Z :=
  let f := Qfloor q in
  match Qcompare (q - inject_Z f) (1 # 2) with
  | Lt => f
  | Gt => f + 1
  | Eq => if Z.even f then f else f + 1
  end.

Definition py_round (x : fval) : result Z :=
  match x with
  | Fin q => Ok (round_half_even (this q))
  | PInf | NInf => Raise OverflowError
  | NaN => Raise ValueError
  end.

(** ** [class Sample] *)

(** A product vector: the 35-slot list of [features_to_vector], or the
    pair [(numerical, categorical)] of [features_to_vector_hashed]. *)
Inductive product_vec : Type :=
| Dense (vector : list Z)
| HashedPair (numerical : list Z) (categorical : gmap string string).

(** [sklearn.feature_extraction.FeatureHasher]; only its presence is
    consulted by the code embedded here. *)
Inductive FeatureHasher : Type :=
| MkFeatureHasher (n_features : Z).

Record Sample : Type := MkSample {
  products : list string;
  feature_dict : gmap string (gmap string Z);
  summary : option string;
  product_vecs : option (list product_vec);
  click : option Z;
  propensity : option fval
}.

(** [Sample.__init__]. *)
Definition Sample_init (fd : gmap string (gmap string Z)) : Sample :=
  {| products := [];
     feature_dict := fd;
     summary := None;
     product_vecs := None;
     click := None;
     propensity := None |}.

(** [Sample.get_category_index]: [KeyError] when the feature id has no
    entry, [None] when the category is not listed under it. *)
Definition get_category_index (fd : gmap string (gmap string Z))
    (feature category : Z) : result (option Z) :=
  match fd !! Py.str feature with
  | None => Raise KeyError
  | Some categories =>
      match categories !! Py.str category with
      | Some index => Ok (Some index)
      | None => Ok None
      end
  end.

(** Unpacking [[a, b] = l]. *)
Definition unpack2 {A} (l : list A) : result (A * A) :=
  match l with
  | [a; b] => Ok (a, b)
  | _ => Raise ValueError
  end.

Definition unpack3 {A} (l : list A) : result (A * A * A) :=
  match l with
  | [a; b; c] => Ok (a, b, c)
  | _ => Raise ValueError
  end.

(** The category text of a categorical token: [value.split(":")[0]] when
    [":" in value]. *)
Definition category_text (value : string) : string :=
  if Py.str_in ":" value then
    match Py.split ":" value with
    | v :: _ => v
    | [] => value
    end
  else value.

(** One iteration of the loop of [features_to_vector]. *)
Definition vector_token (fd : gmap string (gmap string Z))
    (vector : list Z) (feature : string) : result (list Z) :=
  vector ←
    (if Py.str_in ":" feature && negb (Py.str_in "_" feature) then
       '(feature_name, value) ← unpack2 (Py.split ":" feature);
       v ← Py.int value;
       n ← Py.int feature_name;
       Py.setitem vector (n - 1) v
     else Ok vector);
  if Py.str_in "_" feature then
    '(feature_name, value) ← unpack2 (Py.split "_" feature);
    let value := category_text value in
    n ← Py.int feature_name;
    c ← Py.int value;
    category_index ← get_category_index fd n c;
    match category_index with
    | Some index => Py.setitem vector (n - 1) index
    | None => Ok vector
    end
  else Ok vector.

(** [Sample.features_to_vector]. *)
Definition features_to_vector (fd : gmap string (gmap string Z))
    (features : string) : result (list Z) :=
  for_each (vector_token fd) (Py.split_ws features) (replicate 35 0).

(** One iteration of the loop of [features_to_vector_hashed]. *)
Definition hashed_token (st : list Z * gmap string string) (feature : string)
  : result (list Z * gmap string string) :=
  let '(numerical, categorical) := st in
  numerical ←
    (if Py.str_in ":" feature && negb (Py.str_in "_" feature) then
       '(feature_name, value) ← unpack2 (Py.split ":" feature);
       v ← Py.int value;
       n ← Py.int feature_name;
       Py.setitem numerical (n - 1) v
     else Ok numerical);
  if Py.str_in "_" feature then
    '(feature_name, value) ← unpack2 (Py.split "_" feature);
    let value := category_text value in
    Ok (numerical, <[feature_name := value]> categorical)
  else Ok (numerical, categorical).

(** [Sample.features_to_vector_hashed]. *)
Definition features_to_vector_hashed (features : string)
  : result (list Z * gmap string string) :=
  for_each hashed_token (Py.split_ws features) ([0; 0], ∅).

Section Done.

(** Python's [float(s)] is taken as given: the code only relies on it
    returning a float or raising. *)
Variable float : string -> result fval.

Definition require {A} (o : option A) (e : exn) : result A :=
  match o with Some a => Ok a | None => Raise e end.

(** [s.split("|")[-1]]. *)
Definition last_field (s : string) : string :=
  List.last (Py.split "|" s) EmptyString.

(** The vector of one product line, in the mode chosen by [hasher]. *)
Definition vectorise (fd : gmap string (gmap string Z))
    (hasher : option FeatureHasher) (features : string) : result product_vec :=
  match hasher with
  | None => v ← features_to_vector fd features; Ok (Dense v)
  | Some _ =>
      '(numerical, categorical) ← features_to_vector_hashed features;
      Ok (HashedPair numerical categorical)
  end.

(** [Sample.done]. *)
Definition done (self : Sample) (hasher : option FeatureHasher)
  : result Sample :=
  line ← require (summary self) AttributeError;
  let summary_text := last_field line in
  product_showed ← Py.getitem (products self) 0;
  '(score, features) ← unpack2 (Py.split "|" product_showed);
  '(_, click_text, propensity_text) ← unpack3 (Py.split ":" score);
  click_float ← float click_text;
  click_value ← py_round click_float;
  propensity_value ← float propensity_text;
  first_product_vector ←
    vectorise (feature_dict self) hasher (summary_text +:+ " " +:+ features);
  others ←
    map_result
      (fun p => vectorise (feature_dict self) hasher
                  (summary_text +:+ " " +:+ last_field p))
      (List.tl (products self));
  Ok {| products := products self;
        feature_dict := feature_dict self;
        summary := summary self;
        product_vecs := Some (first_product_vector :: others);
        click := Some click_value;
        propensity := Some propensity_value |}.

End Done.

(** ** [class CriteoDataset] *)

(** What a path of the file system holds: a text file (its lines, as
    iterating over the open file yields them), a pickled sample list, or a
    JSON feature dictionary. *)
Inductive file : Type :=
| TextFile (lines : list string)
| PickleFile (pickled : list Sample)
| JsonFile (dict : gmap string (gmap string Z)).

(** [sample.products.append(line)]. *)
Definition append_product (s : Sample) (line : string) : Sample :=
  {| products := products s ++ [line];
     feature_dict := feature_dict s;
     summary := summary s;
     product_vecs := product_vecs s;
     click := click s;
     propensity := propensity s |}.

(** [sample = Sample(feature_dict=...); sample.summary = line]. *)
Definition start_sample (fd : gmap string (gmap string Z)) (line : string)
  : Sample :=
  let sample := Sample_init fd in
  {| products := products sample;
     feature_dict := feature_dict sample;
     summary := Some line;
     product_vecs := product_vecs sample;
     click := click sample;
     propensity := propensity sample |}.

Module CriteoDataset.

Record t : Type := Make {
  hasher : option FeatureHasher;
  samples : list Sample;
  feature_dict : gmap string (gmap string Z)
}.

Definition set_samples (self : t) (l : list Sample) : t :=
  {| hasher := hasher self; samples := l; feature_dict := feature_dict self |}.

(** ['{}_{}.pickle'.format(filename, stop_idx)]. *)
Definition pickle_name (filename : string) (stop_idx : Z) : string :=
  filename +:+ "_" +:+ Py.str stop_idx +:+ ".pickle".

Section Load.

Variable float : string -> result fval.

(** The [for i, line in enumerate(f)] loop of [load], from line index [i]
    on, with the local [sample] and the list [self.samples] as state.  The
    value is [self.samples] when the loop ends, by exhaustion or by
    [break]. *)
Fixpoint load_loop (self : t) (stop_idx start_idx : Z) (i : Z)
    (lines : list string) (sample : option Sample) (acc : list Sample)
  : result (list Sample) :=
  match lines with
  | [] => Ok acc
  | raw :: rest =>
      let line := Py.strip raw in
      if i <? start_idx then
        load_loop self stop_idx start_idx (i + 1) rest sample acc
      else if negb (stop_idx =? -1) && (stop_idx <=? i) then
        Ok acc
      else if negb (Py.nonempty line) then
        load_loop self stop_idx start_idx (i + 1) rest sample acc
      else if Py.str_in "shared" line then
        acc' ← match sample with
                | Some s => s' ← done float s (hasher self); Ok (acc ++ [s'])
                | None => Ok acc
                end;
        load_loop self stop_idx start_idx (i + 1) rest
          (Some (start_sample (feature_dict self) line)) acc'
      else
        load_loop self stop_idx start_idx (i + 1) rest
          (match sample with
           | Some s => Some (append_product s line)
           | None => None
           end) acc
  end.

(** The parse branch of [load], on the lines of the source file. *)
Definition parse (self : t) (stop_idx start_idx : Z) (lines : list string)
  : result (list Sample) :=
  load_loop self stop_idx start_idx 0 lines None (samples self).

(** [CriteoDataset.load], threading the file system. *)
Definition load (self : t) (fs : gmap string file)
    (filename : string) (stop_idx start_idx : Z)
  : result (t * gmap string file) :=
  let pickle_file := pickle_name filename stop_idx in
  match fs !! pickle_file with
  | Some (PickleFile pickled) => Ok (set_samples self pickled, fs)
  | Some _ => Raise UnpicklingError
  | None =>
      match fs !! filename with
      | None => Raise FileNotFoundError
      | Some (TextFile lines) =>
          parsed ← parse self stop_idx start_idx lines;
          Ok (set_samples self parsed,
              <[pickle_file := PickleFile parsed]> fs)
      | Some _ => Raise ValueError
      end
  end.

(** [CriteoDataset.__init__] without hashing: read the feature dictionary,
    start from an empty sample list, and load. *)
Definition init (fs : gmap string file) (filename features_config : string)
    (stop_idx start_idx : Z) (h : option FeatureHasher)
  : result (t * gmap string file) :=
  match fs !! features_config with
  | None => Raise FileNotFoundError
  | Some (JsonFile d) =>
      load {| hasher := h; samples := []; feature_dict := d |}
        fs filename stop_idx start_idx
  | Some _ => Raise ValueError
  end.

End Load.

(** The session-boundary markers the loop of [load] meets: non-blank lines
    containing ["shared"], at an index from [start_idx] on and before the
    cutoff. *)
Fixpoint markers_encountered (stop_idx start_idx : Z) (i : Z)
    (lines : list string) : nat :=
  match lines with
  | [] => 0%nat
  | raw :: rest =>
      let line := Py.strip raw in
      if i <? start_idx then markers_encountered stop_idx start_idx (i + 1) rest
      else if negb (stop_idx =? -1) && (stop_idx <=? i) then 0%nat
      else if Py.nonempty line && Py.str_in "shared" line then
        S (markers_encountered stop_idx start_idx (i + 1) rest)
      else markers_encountered stop_idx start_idx (i + 1) rest
  end.

End CriteoDataset.

(** A reading of the decimal literals [[sign]digits[.digits]] as exact
    rationals, to run the parser on concrete logs.  Python's [float] agrees
    with it on the literals that a binary64 float represents exactly. *)
Definition decimal_float (s : string) : result fval :=
  let '(neg, body) :=
    match s with
    | String "-"%char r => (true, r)
    | String "+"%char r => (false, r)
    | _ => (false, s)
    end in
  '(whole, frac) ←
    match Py.split "." body with
    | [w] => Ok (w, EmptyString)
    | [w; f] => Ok (w, f)
    | _ => Raise ValueError
    end;
  if Py.nonempty whole then
    match Py.digits_val 0 whole, Py.digits_val 0 frac with
    | Some w, Some f =>
        let q := (inject_Z w + inject_Z f / inject_Z (10 ^ Z.of_nat (String.length frac)))%Q in
        Ok (Fin (Q2Qc (if neg then - q else q)%Q))
    | _, _ => Raise ValueError
    end
  else Raise ValueError.

(** ** [class BatchIterator] *)

(** More Python list primitives. *)
Module PyList.

(** The bound of a slice: negative bounds count from the end, and the
    result is clamped to [0 .. len]. *)
Definition clamp (len i : Z) : nat :=
  let j := if i <? 0 then i + len else i in
  Z.to_nat (Z.min len (Z.max 0 j)).

(** [l[lo:hi]]. *)
Definition slice {A} (l : list A) (lo hi : Z) : list A :=
  let n := Z.of_nat (length l) in
  let a := clamp n lo in
  let b := clamp n hi in
  take (b - a) (drop a l).

(** [range(0, stop, step)] for [stop >= 0]: [ValueError] when the step is
    zero, empty when it is negative. *)
Definition range_step (stop : nat) (step : Z) : result (list Z) :=
  match step with
  | Z0 => Raise ValueError
  | Zneg _ => Ok []
  | Zpos p =>
      let b := Pos.to_nat p in
      Ok (List.map (fun k => Z.of_nat k * step) (seq 0 ((stop + b - 1) / b)))
  end.

End PyList.

(** The batch a pass of the iterator yields is three tensors with the same
    leading dimension: the stacked product vectors (one [K x F] block per
    session), the clicks and the propensities.  It is kept as the list of
    its rows, so that the leading dimensions agree by construction. *)
Record Row : Type := MkRow {
  row_products : list (list Z);
  row_click : fval;
  row_propensity : fval
}.

Definition Batch : Type := list Row.

Definition batch_products (b : Batch) : list (list (list Z)) :=
  List.map row_products b.
Definition batch_clicks (b : Batch) : list fval := List.map row_click b.
Definition batch_propensities (b : Batch) : list fval :=
  List.map row_propensity b.

Module BatchIterator.

Record t : Type := Make {
  dataset : list Sample;
  sorted_per_pool_size : list (nat * list Sample);
  batch_size : Z;
  enable_cuda : bool
}.

(** [d[k].append(s)] on a [defaultdict(list)]: a new key goes last
    (dictionaries iterate in insertion order). *)
Fixpoint group_append (k : nat) (s : Sample) (d : list (nat * list Sample))
  : list (nat * list Sample) :=
  match d with
  | [] => [(k, [s])]
  | (k', l) :: rest =>
      if decide (k = k') then (k', l ++ [s]) :: rest
      else (k', l) :: group_append k s rest
  end.

(** [BatchIterator.__init__]. *)
Definition init (ds : list Sample) (bsize : Z) (cuda : bool) : t :=
  {| dataset := ds;
     sorted_per_pool_size :=
       foldl (fun d s => group_append (length (products s)) s d) [] ds;
     batch_size := bsize;
     enable_cuda := cuda |}.

(** The rows of one product vector as tensor input: only a list of numbers
    converts. *)
Definition dense_rows (vs : list product_vec) : result (list (list Z)) :=
  map_result
    (fun v => match v with
              | Dense l => Ok l
              | HashedPair _ _ => Raise TypeError
              end) vs.

(** Whether a nested list is a rectangle, as a tensor needs. *)
Definition same_lengths {A} (ls : list (list A)) : bool :=
  match ls with
  | [] => true
  | l :: rest => forallb (fun l' => Nat.eqb (length l') (length l)) rest
  end.

Definition rectangular (p : list (list (list Z))) : bool :=
  same_lengths p && forallb same_lengths p && same_lengths (concat p).

(** The three tensors built from a slice of sessions. *)
Definition collate (batch : list Sample) : result Batch :=
  prods ← map_result
             (fun s => vs ← require (product_vecs s) TypeError; dense_rows vs)
             batch;
  prods ← (if rectangular prods then Ok prods else Raise ValueError);
  clicks ← map_result (fun s => c ← require (click s) TypeError; Ok (of_Z c))
             batch;
  props ← map_result (fun s => require (propensity s) TypeError) batch;
  Ok (zip_with (fun pc p => MkRow pc.1 pc.2 p) (zip prods clicks) props).

Section Iter.

(** The state of the [random] module and [random.shuffle], which reorders
    a list in place: the shuffled list holds the same elements. *)
Variable RandomState : Type.
Variable shuffle : RandomState -> list Sample -> list Sample * RandomState.
Hypothesis shuffle_perm : forall g l, (shuffle g l).1 ≡ₚ l.

(** The slices [data[i:i+batch_size]] of one shuffled group. *)
Definition slices (bsize : Z) (data : list Sample)
  : result (list (list Sample)) :=
  starts ← PyList.range_step (length data) bsize;
  Ok (List.map (fun i => PyList.slice data i (i + bsize)) starts).

(** The loop over the groups of [__iter__]: the sample slices in the order
    they are yielded, the groups as the shuffles leave them, and the state
    of the generator. *)
Fixpoint iter_groups (bsize : Z) (d : list (nat * list Sample))
    (g : RandomState)
  : result (list (list Sample) * list (nat * list Sample) * RandomState) :=
  match d with
  | [] => Ok ([], [], g)
  | (pool_size, data) :: rest =>
      let '(data', g') := shuffle g data in
      batches ← slices bsize data';
      '(more, rest', g'') ← iter_groups bsize rest g';
      Ok (batches ++ more, (pool_size, data') :: rest', g'')
  end.

Definition set_groups (self : t) (d : list (nat * list Sample)) : t :=
  {| dataset := dataset self;
     sorted_per_pool_size := d;
     batch_size := batch_size self;
     enable_cuda := enable_cuda self |}.

(** One pass: the slices of sessions behind the yielded batches. *)
Definition iter_batches (self : t) (g : RandomState)
  : result (list (list Sample) * t * RandomState) :=
  '(batches, d, g') ←
    iter_groups (batch_size self) (sorted_per_pool_size self) g;
  Ok (batches, set_groups self d, g').

(** [BatchIterator.__iter__], run to exhaustion. *)
Definition iter (self : t) (g : RandomState)
  : result (list Batch * t * RandomState) :=
  '(batches, self', g') ← iter_batches self g;
  yielded ← map_result collate batches;
  Ok (yielded, self', g').

End Iter.

End BatchIterator.

(** ** The estimator of [SimpleNN/__main__.py] *)

(** Tensor operations, entry by entry. *)
Definition torch_zeros (n : nat) : list fval := replicate n (of_Z 0).
Definition torch_ones (n : nat) : list fval := replicate n (of_Z 1).
Definition tensor_eq_one (t : list fval) : list bool := List.map feq_one t.
Definition torch_where (cond : list bool) (a b : list fval) : list fval :=
  zip_with (fun c ab => if c : bool then ab.1 else ab.2) cond (zip a b).
Definition tensor_mul (a b : list fval) : list fval := zip_with fmul a b.
Definition tensor_div (a b : list fval) : list fval := zip_with fdiv a b.
Definition tensor_scale (a : list fval) (k : Z) : list fval :=
  List.map (fun x => fmul x (of_Z k)) a.

(** A Python number: the accumulators of [run_test_set] start as the
    [int] 0 and become 0-d tensors with the first [+=]. *)
Inductive num : Type :=
| PyInt (z : Z)
| PyFloat (x : fval)
| Tensor (x : fval).

Definition num_value (a : num) : fval :=
  match a with
  | PyInt z => of_Z z
  | PyFloat x | Tensor x => x
  end.

Definition is_tensor (a : num) : bool :=
  match a with Tensor _ => true | _ => false end.

Definition is_zero (x : fval) : bool :=
  match x with Fin q => bool_decide (q = 0%Qc) | _ => false end.

(** [a += t] for a tensor [t]. *)
Definition num_iadd (a : num) (t : fval) : num :=
  Tensor (fadd (num_value a) t).

(** [a / b]: tensor division follows IEEE; division of Python numbers
    raises on a zero divisor. *)
Definition num_div (a b : num) : result num :=
  if is_tensor a || is_tensor b then
    Ok (Tensor (fdiv (num_value a) (num_value b)))
  else if is_zero (num_value b) then Raise ZeroDivisionError
  else Ok (PyFloat (fdiv (num_value a) (num_value b))).

(** [a * k] for an [int] constant [k]. *)
Definition num_mul_int (a : num) (k : Z) : num :=
  match a with
  | PyInt z => PyInt (z * k)
  | PyFloat x => PyFloat (fmul x (of_Z k))
  | Tensor x => Tensor (fmul x (of_Z k))
  end.

(** The label tensor of [run_test_set]:
    [torch.where(click == 1, not_clicked_tensor, clicked_tensor)] with
    [not_clicked_tensor] zeros and [clicked_tensor] ones. *)
Definition rectified_label_test (current_batch_size : nat)
    (click : list fval) : list fval :=
  let not_clicked_tensor := torch_zeros current_batch_size in
  let clicked_tensor := torch_ones current_batch_size in
  torch_where (tensor_eq_one click) not_clicked_tensor clicked_tensor.

(** The label tensor of [calc_loss]:
    [torch.where(click_tensor == 1, clicked, not_clicked)] with [clicked]
    zeros and [not_clicked] ones. *)
Definition rectified_label_loss (current_batch_size : nat)
    (click_tensor : list fval) : list fval :=
  let clicked := torch_zeros current_batch_size in
  let not_clicked := torch_ones current_batch_size in
  torch_where (tensor_eq_one click_tensor) clicked not_clicked.

(** The weights summed into [N]. *)
Definition normalizer_weights (current_batch_size : nat)
    (click : list fval) : list fval :=
  let clicked_tensor := torch_ones current_batch_size in
  let not_clicked_tensor :=
    tensor_scale (torch_ones current_batch_size) 10 in
  torch_where (tensor_eq_one click) not_clicked_tensor clicked_tensor.

Section Estimator.

(** The scoring model in evaluation mode, session by session: [model p] is
    the entry [output[b, 0, 0]] of the session whose product block is [p]. *)
Variable model : list (list Z) -> fval.

(** The body of the loop of [run_test_set] on the accumulators
    [(R, C, N)]. *)
Definition test_step (acc : num * num * num) (b : Batch)
  : num * num * num :=
  let '(R, C, N) := acc in
  let sample := batch_products b in
  let click := batch_clicks b in
  let propensity := batch_propensities b in
  let output := List.map model sample in
  let current_batch_size := length output in
  let rectified_label := rectified_label_test current_batch_size click in
  let o := normalizer_weights current_batch_size click in
  let N := num_iadd N (tsum o) in
  let R :=
    num_iadd R (tsum (tensor_mul rectified_label
                        (tensor_div output propensity))) in
  let C := num_iadd C (tsum (tensor_div output propensity)) in
  (R, C, N).

(** The three numbers [run_test_set] prints: [R x 10^4], [C] and their
    ratio. *)
Definition report (acc : num * num * num) : result (num * num * num) :=
  let '(R, C, N) := acc in
  r ← num_div R N;
  let R := num_mul_int r (10 ^ 4) in
  C ← num_div C N;
  R_div_C ← num_div R C;
  Ok (R, C, R_div_C).

(** [run_test_set] on the batches the iterator yields. *)
Definition evaluate (batches : list Batch) : result (num * num * num) :=
  report (foldl test_step (PyInt 0, PyInt 0, PyInt 0) batches).

Section WithIterator.

Variable RandomState : Type.
Variable shuffle : RandomState -> list Sample -> list Sample * RandomState.

(** [run_test_set]. *)
Definition run_test_set (test_set : list Sample) (batch_size : Z)
    (enable_cuda : bool) (g : RandomState)
  : result (num * num * num) :=
  '(batches, _, _) ←
    BatchIterator.iter RandomState shuffle
      (BatchIterator.init test_set batch_size enable_cuda) g;
  evaluate batches.

End WithIterator.

(** [calc_loss].  Its body reads [click] and [output], which are not among
    its parameters: they are the module-level names bound by the training
    loop, [click] being the 1-d click tensor of the current batch and
    [output] the model output of the current batch.  The 1-d [click]
    against the column tensors broadcasts to a square, which [o_tensor]
    holds row by row. *)
Definition calc_loss (global_output global_click : list fval)
    (output_tensor click_tensor propensity_tensor : list fval) : fval :=
  let current_batch_size := length output_tensor in
  let rectified_label :=
    rectified_label_loss current_batch_size click_tensor in
  let clicked_tensor := torch_ones current_batch_size in
  let not_clicked_tensor :=
    tensor_scale (torch_ones current_batch_size) 10 in
  let o_tensor :=
    List.map
      (fun ab => List.map (fun c => if feq_one c then ab.1 else ab.2)
                   global_click)
      (zip not_clicked_tensor clicked_tensor) in
  let N_tensor := tsum (concat o_tensor) in
  let R_tensor :=
    fmul (tsum (tensor_mul rectified_label
                  (tensor_div global_output propensity_tensor)))
         (of_Z (10 ^ 4)) in
  let loss_tensor := fneg (fdiv R_tensor N_tensor) in
  loss_tensor.

End Estimator.

(** ** Quantities the properties are stated with *)

(** The importance weight of one session:
    [output[:, 0, 0] / propensity]. *)
Definition importance_weight (model : list (list Z) -> fval) (r : Row)
  : fval :=
  fdiv (model (row_products r)) (row_propensity r).

(** The label the code multiplies the importance weight with. *)
Definition label_of_click (c : fval) : fval :=
  if feq_one c then of_Z 0 else of_Z 1.

(** The label as the written specification words it: 1 where
    [click == 1], else 0. *)
Definition label_as_specified (c : fval) : fval :=
  if feq_one c then of_Z 1 else of_Z 0.

(** The weight a session adds to the normalizer [N]. *)
Definition weight_of_click (c : fval) : fval :=
  if feq_one c then of_Z 10 else of_Z 1.

(** The same weight as an integer. *)
Definition count_of_click (c : fval) : Z := if feq_one c then 10 else 1.

(** The sums over all sessions of a pass, whatever the batching. *)
Definition sum_weights (model : list (list Z) -> fval)
    (batches : list Batch) : fval :=
  tsum (List.map (importance_weight model) (concat batches)).

Definition sum_rewards (model : list (list Z) -> fval)
    (batches : list Batch) : fval :=
  tsum (List.map
          (fun r => fmul (label_of_click (row_click r))
                      (importance_weight model r))
          (concat batches)).

Definition sum_normalizer (batches : list Batch) : fval :=
  tsum (List.map (fun r => weight_of_click (row_click r)) (concat batches)).

(** A printed ratio that is NaN or an infinity. *)
Definition prints_nonfinite_ratio (r : result (num * num * num)) : bool :=
  match r with
  | Ok (_, _, ratio) => negb (is_finite (num_value ratio))
  | Raise _ => false
  end.

(** Equality test on float values, to compare computed results. *)
Definition feqb (x y : fval) : bool :=
  match x, y with
  | Fin a, Fin b => Qeq_bool (this a) (this b)
  | PInf, PInf | NInf, NInf | NaN, NaN => true
  | _, _ => false
  end.

(** The rational [a / b] as a float value. *)
Definition frac (a : Z) (b : positive) : fval := Fin (Q2Qc (a # b)).

(** ** Preconditions on feature tokens *)

Definition in_range (n : Z) : bool := (1 <=? n) && (n <=? 35).

(** The feature id of a token: the integer in front of its first ["_"],
    or of its [":"] when it has no ["_"].  A token with neither separator
    carries no id and is skipped by the vectoriser. *)
Definition token_feature_id (feature : string) : option (result Z) :=
  if Py.str_in "_" feature then
    match Py.split "_" feature with
    | feature_name :: _ => Some (Py.int feature_name)
    | [] => None
    end
  else if Py.str_in ":" feature then
    match Py.split ":" feature with
    | feature_name :: _ => Some (Py.int feature_name)
    | [] => None
    end
  else None.

(** Every token that carries a feature id has it in 1..35. *)
Definition ids_in_range (features : string) : bool :=
  forallb
    (fun feature =>
       match token_feature_id feature with
       | Some (Ok n) => in_range n
       | Some (Raise _) => false
       | None => true
       end)
    (Py.split_ws features).

(** A token the vectoriser can process: of the form [id:value] or
    [id_category[:weight]] with integer [id], [value] and [category], the
    id in 1..35, and for a categorical token the id a key of the feature
    dictionary. *)
Definition well_formed_token (fd : gmap string (gmap string Z))
    (feature : string) : bool :=
  if Py.str_in "_" feature then
    match Py.split "_" feature with
    | [feature_name; value] =>
        match Py.int feature_name, Py.int (category_text value) with
        | Ok n, Ok _ => in_range n && bool_decide (is_Some (fd !! Py.str n))
        | _, _ => false
        end
    | _ => false
    end
  else if Py.str_in ":" feature then
    match Py.split ":" feature with
    | [feature_name; value] =>
        match Py.int feature_name, Py.int value with
        | Ok n, Ok _ => in_range n
        | _, _ => false
        end
    | _ => false
    end
  else true.

(** ** Sessions and files *)

(** The same sample with another product list. *)
Definition with_products (s : Sample) (l : list string) : Sample :=
  {| products := l;
     feature_dict := feature_dict s;
     summary := summary s;
     product_vecs := product_vecs s;
     click := click s;
     propensity := propensity s |}.

(** ** Pool-size groups *)



(** ** Slots and rows *)

(** The slot of a 35-slot vector that [vector[id - 1]] addresses, negative
    indices counting from the end; [None] when the index is out of
    range. *)
Definition slot_of_id (n : Z) : option nat :=
  let i := n - 1 in
  let j := if i <? 0 then i + 35 else i in
  if (0 <=? j) && (j <? 35) then Some (Z.to_nat j) else None.

(** Whether the token carries a feature id that addresses slot [k]. *)
Definition addresses (k : nat) (feature : string) : bool :=
  match token_feature_id feature with
  | Some (Ok n) => bool_decide (slot_of_id n = Some k)
  | _ => false
  end.

(** The feature name under which the hashed vectoriser files a token, for
    a token on which its categorical branch succeeds. *)
Definition categorical_name (feature : string) : option string :=
  if Py.str_in "_" feature then
    match Py.split "_" feature with
    | [feature_name; _] => Some feature_name
    | _ => None
    end
  else None.

(** ** Finalized sessions *)

(** A product vector of dictionary mode: 35 numbers. *)
Definition dense35 (v : product_vec) : bool :=
  match v with
  | Dense l => Nat.eqb (length l) 35
  | HashedPair _ _ => false
  end.

(** A session as [done] leaves it in dictionary mode: click and propensity
    set, and one 35-slot vector per product line, of which there is at
    least one. *)
Definition finalized (s : Sample) : Prop :=
  is_Some (click s) /\ is_Some (propensity s)
  /\ exists vs, product_vecs s = Some vs
                /\ length vs = length (products s)
                /\ products s <> []
                /\ forallb dense35 vs = true.

(** The lines of a session as the loader files them: a non-blank marker
    line as summary, and product lines that are non-blank and hold no
    marker. *)
Definition well_shaped (s : Sample) : Prop :=
  (exists line, summary s = Some line
                /\ Py.nonempty line = true
                /\ Py.str_in "shared" line = true)
  /\ Forall (fun p => Py.nonempty p = true /\ Py.str_in "shared" p = false)
       (products s).

(** * Properties *)

(** ** Float values *)

Lemma feqb_eq x y : feqb x y = true -> x = y.
Proof.
  destruct x as [a| | |], y as [b| | |]; simpl; try discriminate; try reflexivity.
  intros H. f_equal. apply Qc_is_canon. by apply Qeq_bool_eq.
Qed.

Lemma fadd_assoc x y z : fadd x (fadd y z) = fadd (fadd x y) z.
Proof.
  destruct x, y, z; simpl; try reflexivity.
  by rewrite Qcplus_assoc.
Qed.

Lemma fadd_comm x y : fadd x y = fadd y x.
Proof.
  destruct x, y; simpl; try reflexivity.
  by rewrite Qcplus_comm.
Qed.

Lemma fadd_0_l x : fadd (of_Z 0) x = x.
Proof.
  destruct x; simpl; try reflexivity.
  f_equal. apply Qcplus_0_l.
Qed.

Lemma tsum_app a b : tsum (a ++ b) = fadd (tsum a) (tsum b).
Proof.
  induction a as [|x a IH]; simpl.
  - symmetry. apply fadd_0_l.
  - by rewrite IH, fadd_assoc.
Qed.

Lemma of_Z_inj a b : of_Z a = of_Z b -> a = b.
Proof.
  unfold of_Z. intros H. injection H as H.
  apply Qred_eq_iff in H. by apply (proj1 (inject_Z_injective a b)).
Qed.

Lemma feq_one_of_Z c : feq_one (of_Z c) = (c =? 1).
Proof.
  unfold feq_one, of_Z.
  destruct (Z.eqb_spec c 1) as [->|Hne].
  - by apply bool_decide_eq_true.
  - apply bool_decide_eq_false. intros H. apply Hne.
    apply of_Z_inj. unfold of_Z. by rewrite H.
Qed.

Lemma fmul_one_ten : fmul (of_Z 1) (of_Z 10) = of_Z 10.
Proof. by apply feqb_eq. Qed.

(** ** The tensors of one batch, entry by entry *)

Lemma torch_where_replicate (cond : list bool) (x y : fval) :
  torch_where cond (replicate (length cond) x) (replicate (length cond) y)
  = List.map (fun c : bool => if c then x else y) cond.
Proof.
  unfold torch_where.
  induction cond as [|c cond IH]; simpl; [reflexivity|].
  by rewrite IH.
Qed.

Lemma rectified_label_test_map click :
  rectified_label_test (length click) click = List.map label_of_click click.
Proof.
  unfold rectified_label_test, torch_zeros, torch_ones, tensor_eq_one.
  rewrite <- (length_map feq_one click), torch_where_replicate.
  by rewrite map_map.
Qed.

Lemma rectified_label_loss_map click :
  rectified_label_loss (length click) click = List.map label_of_click click.
Proof.
  unfold rectified_label_loss, torch_zeros, torch_ones, tensor_eq_one.
  rewrite <- (length_map feq_one click), torch_where_replicate.
  by rewrite map_map.
Qed.

Lemma normalizer_weights_map click :
  normalizer_weights (length click) click = List.map weight_of_click click.
Proof.
  unfold normalizer_weights, torch_ones, tensor_eq_one, tensor_scale.
  assert (Hs : forall n, List.map (fun x => fmul x (of_Z 10)) (replicate n (of_Z 1))
                         = replicate n (of_Z 10)).
  { induction n as [|n IH]; cbn [replicate List.map]; [reflexivity|].
    by rewrite IH, fmul_one_ten. }
  rewrite Hs, <- (length_map feq_one click), torch_where_replicate.
  by rewrite map_map.
Qed.

Lemma zip_with_map_same {A B C D} (f : B -> C -> D) (g : A -> B) (h : A -> C)
    (l : list A) :
  zip_with f (List.map g l) (List.map h l) = List.map (fun a => f (g a) (h a)) l.
Proof. induction l as [|a l IH]; simpl; [reflexivity|]. by rewrite IH. Qed.

Section EstimatorFacts.

Variable model : list (list Z) -> fval.

Lemma test_step_sums R C N (b : Batch) :
  test_step model (R, C, N) b
  = (Tensor (fadd (num_value R) (sum_rewards model [b])),
     Tensor (fadd (num_value C) (sum_weights model [b])),
     Tensor (fadd (num_value N) (sum_normalizer [b]))).
Proof.
  unfold test_step, sum_rewards, sum_weights, sum_normalizer, num_iadd.
  unfold batch_products, batch_clicks, batch_propensities.
  simpl concat. rewrite app_nil_r.
  rewrite !length_map.
  rewrite <- (length_map row_click b) at 1 2.
  rewrite rectified_label_test_map, normalizer_weights_map.
  unfold tensor_mul, tensor_div.
  rewrite (map_map row_products model).
  rewrite (zip_with_map_same fdiv (fun r => model (row_products r)) row_propensity).
  rewrite (map_map row_click label_of_click).
  rewrite (zip_with_map_same fmul (fun r => label_of_click (row_click r))
             (fun r => fdiv (model (row_products r)) (row_propensity r))).
  by rewrite (map_map row_click weight_of_click).
Qed.

Lemma sum_rewards_app b1 b2 :
  sum_rewards model (b1 ++ b2)
  = fadd (sum_rewards model b1) (sum_rewards model b2).
Proof. unfold sum_rewards. by rewrite concat_app, List.map_app, tsum_app. Qed.

Lemma sum_weights_app b1 b2 :
  sum_weights model (b1 ++ b2)
  = fadd (sum_weights model b1) (sum_weights model b2).
Proof. unfold sum_weights. by rewrite concat_app, List.map_app, tsum_app. Qed.

Lemma sum_normalizer_app b1 b2 :
  sum_normalizer (b1 ++ b2) = fadd (sum_normalizer b1) (sum_normalizer b2).
Proof. unfold sum_normalizer. by rewrite concat_app, List.map_app, tsum_app. Qed.

(** After at least one batch the accumulators are tensors holding the sums
    over all sessions seen so far. *)
Lemma foldl_test_step_sums (batches : list Batch) R C N (b : Batch) :
  foldl (test_step model) (R, C, N) (b :: batches)
  = (Tensor (fadd (num_value R) (sum_rewards model (b :: batches))),
     Tensor (fadd (num_value C) (sum_weights model (b :: batches))),
     Tensor (fadd (num_value N) (sum_normalizer (b :: batches)))).
Proof.
  revert R C N b.
  induction batches as [|b' batches IH]; intros R C N b.
  - simpl foldl. apply test_step_sums.
  - change (foldl (test_step model) (R, C, N) (b :: b' :: batches))
      with (foldl (test_step model) (test_step model (R, C, N) b) (b' :: batches)).
    rewrite test_step_sums, IH. simpl num_value.
    change (b :: b' :: batches) with ([b] ++ (b' :: batches)).
    rewrite sum_rewards_app, sum_weights_app, sum_normalizer_app.
    by rewrite !fadd_assoc.
Qed.

(** What [run_test_set] prints after a pass of at least one batch. *)
Lemma evaluate_cons (b : Batch) (batches : list Batch) :
  evaluate model (b :: batches)
  = let n := sum_normalizer (b :: batches) in
    let R := fmul (fdiv (sum_rewards model (b :: batches)) n) (of_Z (10 ^ 4)) in
    let C := fdiv (sum_weights model (b :: batches)) n in
    Ok (Tensor R, Tensor C, Tensor (fdiv R C)).
Proof.
  unfold evaluate. rewrite foldl_test_step_sums.
  simpl num_value. rewrite !fadd_0_l. reflexivity.
Qed.

Lemma evaluate_nil : evaluate model [] = Raise ZeroDivisionError.
Proof. reflexivity. Qed.

End EstimatorFacts.

(** ** The normalizer is a positive count *)

Lemma fadd_of_Z a b : fadd (of_Z a) (of_Z b) = of_Z (a + b).
Proof.
  unfold of_Z, fadd. f_equal. apply Qc_is_canon. simpl.
  rewrite !Qred_correct. by rewrite inject_Z_plus.
Qed.


Lemma sum_normalizer_count (batches : list Batch) :
  sum_normalizer batches
  = of_Z (foldr (fun r k => count_of_click (row_click r) + k) 0 (concat batches)).
Proof.
  unfold sum_normalizer, tsum.
  induction (concat batches) as [|r rows IH]; cbn [foldr List.map]; [reflexivity|].
  rewrite IH. unfold weight_of_click, count_of_click.
  destruct (feq_one (row_click r)); apply fadd_of_Z.
Qed.

Lemma count_nonneg (rows : list Row) :
  0 <= foldr (fun r k => count_of_click (row_click r) + k) 0 rows.
Proof.
  induction rows as [|r rows IH]; cbn [foldr]; [lia|].
  assert (1 <= count_of_click (row_click r))
    by (unfold count_of_click; destruct (feq_one _); lia).
  lia.
Qed.

Lemma is_zero_of_Z k : is_zero (of_Z k) = (k =? 0).
Proof.
  unfold is_zero, of_Z.
  destruct (Z.eqb_spec k 0) as [->|Hne].
  - by apply bool_decide_eq_true.
  - apply bool_decide_eq_false. intros H. apply Hne.
    apply of_Z_inj. unfold of_Z. by rewrite H.
Qed.

Lemma of_Z_pos k : 0 < k -> (0 < Q2Qc (inject_Z k))%Qc.
Proof.
  intros Hk. unfold Qclt. cbn [this Q2Qc]. rewrite !Qred_correct.
  unfold Qlt. simpl. lia.
Qed.

Lemma Qclt_neq (n : Qc) : (0 < n)%Qc -> n <> 0%Qc.
Proof. intros H ->. by apply Qclt_alt in H. Qed.



Lemma fdiv_zero_nonfinite x : is_finite (fdiv x (of_Z 0)) = false.
Proof.
  destruct x as [a| | |]; try reflexivity.
  unfold of_Z, fdiv. rewrite decide_True by reflexivity.
  unfold inf_signed. by destruct (a ?= 0)%Qc.
Qed.

Lemma fmul_pos_nonfinite x (t : Qc) :
  (0 < t)%Qc -> is_finite x = false -> is_finite (fmul x (Fin t)) = false.
Proof.
  intros Ht Hx. assert (Hct : (t ?= 0)%Qc = Gt) by by apply Qcgt_alt.
  destruct x; try discriminate; unfold fmul, inf_signed; by rewrite ?Hct.
Qed.

Lemma fdiv_nonfinite x y :
  is_finite x = false -> is_finite y = false -> fdiv x y = NaN.
Proof. by destruct x, y. Qed.

Lemma ten_thousand_pos : (0 < Q2Qc (inject_Z (10 ^ 4)))%Qc.
Proof. by apply of_Z_pos. Qed.

(** Equations between computed reports, closed by evaluation. *)
Ltac float_eq :=
  repeat match goal with
    | |- Ok _ = Ok _ => f_equal
    | |- (_, _) = (_, _) => f_equal
    | |- Tensor _ = Tensor _ => f_equal
    | |- @eq fval _ _ => apply feqb_eq; vm_compute; reflexivity
    end.

(** ** Claims on the estimator *)

(** C1 (as amended).  In both the evaluation path ([run_test_set]) and the
    training-loss path ([calc_loss]) the rectified label multiplied into
    [R] is 0 for a session whose click field equals 1 and 1 otherwise. *)
Theorem rectified_label_zero_where_click_is_one (click : list fval) :
  rectified_label_test (length click) click
  = List.map (fun c => if feq_one c then of_Z 0 else of_Z 1) click
  /\ rectified_label_loss (length click) click
     = List.map (fun c => if feq_one c then of_Z 0 else of_Z 1) click.
Proof.
  split.
  - apply rectified_label_test_map.
  - apply rectified_label_loss_map.
Qed.

(** C1 as stated fails: for a batch of one session whose click is 1, both
    paths compute the label 0, where the claim says 1. *)
Lemma rectified_label_click_one_counterexample :
  rectified_label_test 1 [of_Z 1] <> List.map label_as_specified [of_Z 1]
  /\ rectified_label_loss 1 [of_Z 1] <> List.map label_as_specified [of_Z 1].
Proof.
  change 1%nat with (length [of_Z 1]).
  rewrite rectified_label_test_map, rectified_label_loss_map.
  unfold label_of_click, label_as_specified. cbn [List.map].
  rewrite feq_one_of_Z. cbn [Z.eqb Pos.eqb].
  split; intros H; injection H as H; discriminate H.
Qed.

(** C3 (as amended).  After a pass of at least one batch [run_test_set]
    reports [C] as the sum over all sessions of the importance weight
    [output[:, 0, 0] / propensity] divided by the normalizer [N], [R] as
    the sum over all sessions of label times importance weight divided by
    [N] and multiplied by 10,000, and their ratio [R / C]; the label is 0
    where the click is 1 and 1 otherwise, and [N] adds 10 for a session
    whose click is 1 and 1 for any other. *)
Theorem run_test_set_reports_normalized_sums
    (model : list (list Z) -> fval) (b : Batch) (batches : list Batch) :
  let rows := concat (b :: batches) in
  let weight := fun r => fdiv (model (row_products r)) (row_propensity r) in
  let label := fun r => if feq_one (row_click r) then of_Z 0 else of_Z 1 in
  let N := tsum (List.map (fun r => if feq_one (row_click r)
                                    then of_Z 10 else of_Z 1) rows) in
  let R := fmul (fdiv (tsum (List.map (fun r => fmul (label r) (weight r)) rows)) N)
             (of_Z 10000) in
  let C := fdiv (tsum (List.map weight rows)) N in
  evaluate model (b :: batches) = Ok (Tensor R, Tensor C, Tensor (fdiv R C)).
Proof. intros. apply evaluate_cons. Qed.

(** C3 as stated fails: for one session with click 1, model output 1 and
    propensity 1 the importance weights sum to 1, but the reported [C] is
    1/10. *)
Lemma reported_C_counterexample :
  let model := fun _ : list (list Z) => of_Z 1 in
  let pass := [[MkRow [[1]] (of_Z 1) (of_Z 1)]] in
  sum_weights model pass = of_Z 1
  /\ evaluate model pass
     = Ok (Tensor (of_Z 0), Tensor (frac 1 10), Tensor (of_Z 0))
  /\ frac 1 10 <> of_Z 1.
Proof.
  cbv zeta. split; [|split].
  - by apply feqb_eq.
  - rewrite evaluate_cons. cbv zeta.
    float_eq.
  - intros H. apply (f_equal (fun x => feqb x (of_Z 1))) in H.
    vm_compute in H. discriminate H.
Qed.

(** C4 (as amended).  When the importance weights of a pass sum to zero or
    its normalizer is zero, nothing flags the result as undefined: an
    empty pass raises [ZeroDivisionError] at the first division, and any
    other such pass prints a ratio that is NaN or an infinity. *)
Theorem zero_denominator_is_not_signalled
    (model : list (list Z) -> fval) (batches : list Batch) :
  is_zero (sum_weights model batches) || is_zero (sum_normalizer batches)
  = true ->
  match batches with
  | [] => evaluate model batches = Raise ZeroDivisionError
  | _ :: _ => prints_nonfinite_ratio (evaluate model batches) = true
  end.
Proof.
  intros Hz. destruct batches as [|b batches]; [reflexivity|].
  rewrite evaluate_cons. cbv zeta. unfold prints_nonfinite_ratio.
  cbn [num_value]. apply negb_true_iff.
  rewrite sum_normalizer_count in *.
  pose proof (count_nonneg (concat (b :: batches))) as Hk.
  set (k := foldr _ 0 (concat (b :: batches))) in *. clearbody k.
  rewrite is_zero_of_Z in Hz.
  destruct (Z.eqb_spec k 0) as [Hk0|Hne].
  - rewrite Hk0. rewrite fdiv_nonfinite; [reflexivity| |apply fdiv_zero_nonfinite].
    apply fmul_pos_nonfinite; [apply ten_thousand_pos|].
    apply fdiv_zero_nonfinite.
  - rewrite orb_false_r in Hz.
    destruct (sum_weights model (b :: batches)) as [c| | |]; try discriminate.
    apply bool_decide_eq_true in Hz. subst c.
    assert (Hn : (0 < Q2Qc (inject_Z k))%Qc) by (apply of_Z_pos; lia).
    replace (fdiv (Fin 0%Qc) (of_Z k)) with (of_Z 0).
    + apply fdiv_zero_nonfinite.
    + unfold of_Z, fdiv. rewrite decide_False by by apply Qclt_neq.
      f_equal. change (Q2Qc (inject_Z 0)) with 0%Qc.
      field. by apply Qclt_neq.
Qed.

(** C4 as stated fails: a pass of one session whose model output is 0 has
    a zero sum of importance weights, and the ratio NaN is printed like
    any other number. *)
Lemma zero_denominator_counterexample :
  let model := fun _ : list (list Z) => of_Z 0 in
  let pass := [[MkRow [[1]] (of_Z 0) (of_Z 1)]] in
  is_zero (sum_weights model pass) = true
  /\ evaluate model pass = Ok (Tensor (of_Z 0), Tensor (of_Z 0), Tensor NaN)
  /\ prints_nonfinite_ratio (evaluate model pass) = true.
Proof.
  cbv zeta. split; [|split].
  - by vm_compute.
  - rewrite evaluate_cons. cbv zeta.
    float_eq.
  - by vm_compute.
Qed.

Lemma zero_denominator_witness :
  let model := fun _ : list (list Z) => of_Z 0 in
  let pass := [[MkRow [[1]] (of_Z 0) (frac 1 2)]; [MkRow [[2]] (of_Z 1) (of_Z 1)]] in
  is_zero (sum_weights model pass) || is_zero (sum_normalizer pass) = true
  /\ prints_nonfinite_ratio (evaluate model pass) = true.
Proof.
  cbv zeta. split.
  - vm_compute. reflexivity.
  - apply (zero_denominator_is_not_signalled (fun _ => of_Z 0)
             [[MkRow [[1]] (of_Z 0) (frac 1 2)]; [MkRow [[2]] (of_Z 1) (of_Z 1)]]).
    vm_compute. reflexivity.
Defined.



(** ** The dictionary vectoriser *)

Lemma setitem_in_bounds {A} (l : list A) (i : Z) (x : A) :
  0 <= i < Z.of_nat (length l) ->
  Py.setitem l i x = Ok (<[Z.to_nat i := x]> l).
Proof.
  intros Hi. unfold Py.setitem.
  destruct (Z.ltb_spec i 0) as [?|_]; [lia|].
  destruct (Z.leb_spec 0 i) as [_|?]; [|lia].
  destruct (Z.ltb_spec i (Z.of_nat (length l))) as [_|?]; [|lia].
  reflexivity.
Qed.

Lemma setitem_negative {A} (l : list A) (i : Z) (x : A) :
  - Z.of_nat (length l) <= i < 0 ->
  Py.setitem l i x = Ok (<[Z.to_nat (i + Z.of_nat (length l)) := x]> l).
Proof.
  intros Hi. unfold Py.setitem.
  destruct (Z.ltb_spec i 0) as [_|?]; [|lia].
  destruct (Z.leb_spec 0 (i + Z.of_nat (length l))) as [_|?]; [|lia].
  destruct (Z.ltb_spec (i + Z.of_nat (length l)) (Z.of_nat (length l)))
    as [_|?]; [|lia].
  reflexivity.
Qed.

Lemma setitem_above {A} (l : list A) (i : Z) (x : A) :
  Z.of_nat (length l) <= i -> Py.setitem l i x = Raise IndexError.
Proof.
  intros Hi. unfold Py.setitem.
  destruct (Z.ltb_spec i 0) as [?|_]; [lia|].
  destruct (Z.ltb_spec i (Z.of_nat (length l))) as [?|_]; [lia|].
  by rewrite andb_false_r.
Qed.

Lemma setitem_length {A} (l l' : list A) (i : Z) (x : A) :
  Py.setitem l i x = Ok l' -> length l' = length l.
Proof.
  unfold Py.setitem. destruct (_ && _); [|discriminate].
  intros [= <-]. apply length_insert.
Qed.

Lemma in_range_bounds n : in_range n = true -> 1 <= n <= 35.
Proof. unfold in_range. lia. Qed.

(** A token that splits in two at ["_"] contains ["_"]. *)
Lemma split_two_str_in (sep : ascii) (s a b : string) :
  Py.split sep s = [a; b] -> Py.str_in (String sep EmptyString) s = true.
Proof.
  revert a b. induction s as [|c s IH]; intros a b; simpl.
  - discriminate.
  - destruct (Ascii.eqb_spec c sep) as [->|Hne].
    + destruct (ascii_dec sep sep); [|congruence]. by destruct s.
    + destruct (ascii_dec sep c); [congruence|].
      destruct (Py.split sep s) as [|h [|h' t]] eqn:Hs; try discriminate.
      intros [= <- <- ->]. by apply (IH h h').
Qed.

(** One token on a 35-slot vector: a well-formed token neither raises nor
    changes the length. *)
Lemma vector_token_well_formed fd (vector : list Z) (feature : string) :
  length vector = 35%nat ->
  well_formed_token fd feature = true ->
  exists vector', vector_token fd vector feature = Ok vector'
                  /\ length vector' = 35%nat.
Proof.
  intros Hlen. unfold well_formed_token, vector_token.
  destruct (Py.str_in "_" feature) eqn:Hu.
  - rewrite andb_false_r. cbn [mbind result_bind].
    destruct (Py.split "_" feature) as [|name [|value [|? ?]]]; try discriminate.
    cbn [unpack2 mbind result_bind].
    destruct (Py.int name) as [n|] eqn:Hn; [|discriminate].
    destruct (Py.int (category_text value)) as [c|] eqn:Hc; [|discriminate].
    intros [Hr Hk]%andb_true_iff. apply in_range_bounds in Hr.
    apply bool_decide_eq_true in Hk. destruct Hk as [categories Hk].
    cbn [mbind result_bind]. unfold get_category_index. rewrite Hk.
    destruct (categories !! Py.str c) as [index|]; cbn [mbind result_bind].
    + rewrite setitem_in_bounds by lia.
      eexists; split; [reflexivity|]. by rewrite length_insert.
    + by exists vector.
  - rewrite andb_true_r.
    destruct (Py.str_in ":" feature) eqn:Hcol; cbn [mbind result_bind].
    + destruct (Py.split ":" feature) as [|name [|value [|? ?]]]; try discriminate.
      cbn [unpack2 mbind result_bind].
      destruct (Py.int name) as [n|] eqn:Hn; [|discriminate].
      destruct (Py.int value) as [v|] eqn:Hv; [|discriminate].
      intros Hr%in_range_bounds. cbn [mbind result_bind].
      rewrite setitem_in_bounds by lia. cbn [mbind result_bind].
      eexists; split; [reflexivity|]. by rewrite length_insert.
    + intros _. by exists vector.
Qed.

Lemma for_each_vector_tokens fd (tokens : list string) (vector : list Z) :
  length vector = 35%nat ->
  forallb (well_formed_token fd) tokens = true ->
  exists vector', for_each (vector_token fd) tokens vector = Ok vector'
                  /\ length vector' = 35%nat.
Proof.
  revert vector. induction tokens as [|tok tokens IH]; intros vector Hlen.
  - intros _. by exists vector.
  - cbn [forallb for_each]. intros [Htok Hrest]%andb_true_iff.
    destruct (vector_token_well_formed fd vector tok Hlen Htok)
      as (v1 & -> & Hlen1).
    cbn [mbind result_bind]. by apply IH.
Qed.

(** What a numeric token [id:value] does to a 35-slot vector, by the
    position of its id. *)
Lemma vector_token_numeric fd (vector : list Z) (feature name value : string)
    (n v : Z) :
  length vector = 35%nat ->
  Py.str_in "_" feature = false ->
  Py.split ":" feature = [name; value] ->
  Py.int name = Ok n ->
  Py.int value = Ok v ->
  vector_token fd vector feature = Py.setitem vector (n - 1) v.
Proof.
  intros Hlen Hu Hs Hn Hv. unfold vector_token.
  rewrite Hu, (split_two_str_in _ _ _ _ Hs), Hs. cbn [andb negb unpack2].
  cbn [mbind result_bind]. rewrite Hv, Hn. cbn [mbind result_bind].
  by destruct (Py.setitem vector (n - 1) v).
Qed.

(** ** Claims on the vectoriser *)



(** C10 (as amended).  Dictionary-mode vectorization returns a vector of
    exactly 35 slots whenever every token is well formed (an [id:value] or
    [id_category[:weight]] token with integer fields), every feature id
    lies in 1..35 and every categorical token's feature id is a key of the
    feature dictionary.  On a 35-slot vector a numeric token with an id in
    1..35 writes slot [id - 1], one with id 0 does not raise and writes
    the last slot (index 34), and one with an id above 35 raises
    [IndexError]. *)
Theorem features_to_vector_slot_safety (fd : gmap string (gmap string Z)) :
  (forall features : string,
      forallb (well_formed_token fd) (Py.split_ws features) = true ->
      exists vector, features_to_vector fd features = Ok vector
                     /\ length vector = 35%nat)
  /\ (forall (vector : list Z) (feature name value : string) (n v : Z),
        length vector = 35%nat ->
        Py.str_in "_" feature = false ->
        Py.split ":" feature = [name; value] ->
        Py.int name = Ok n ->
        Py.int value = Ok v ->
        (1 <= n <= 35 ->
         vector_token fd vector feature
         = Ok (<[Z.to_nat (n - 1) := v]> vector))
        /\ (n = 0 ->
            vector_token fd vector feature = Ok (<[34%nat := v]> vector))
        /\ (35 < n -> vector_token fd vector feature = Raise IndexError)).
Proof.
  split.
  - intros features Hwf. unfold features_to_vector.
    apply for_each_vector_tokens; [by rewrite length_replicate|exact Hwf].
  - intros vector feature name value n v Hlen Hu Hs Hn Hv.
    rewrite (vector_token_numeric fd vector feature name value n v)
      by assumption.
    repeat split.
    + intros Hr. apply setitem_in_bounds. lia.
    + intros ->. rewrite setitem_negative by lia. by rewrite Hlen.
    + intros Hr. apply setitem_above. lia.
Qed.

Lemma features_to_vector_slot_safety_witness :
  let fd : gmap string (gmap string Z) := {[ "3" := {[ "7" := 12 ]} ]} in
  (exists vector, features_to_vector fd "1:5 3_7:1 2:9 3_8" = Ok vector
                  /\ length vector = 35%nat)
  /\ vector_token fd (replicate 35 0) "35:4"
     = Ok (<[34%nat := 4]> (replicate 35 0))
  /\ vector_token fd (replicate 35 0) "0:7"
     = Ok (<[34%nat := 7]> (replicate 35 0))
  /\ vector_token fd (replicate 35 0) "36:1" = Raise IndexError.
Proof.
  cbv zeta.
  destruct (features_to_vector_slot_safety {[ "3" := {[ "7" := 12 ]} ]})
    as [Hall Hstep].
  split; [|split; [|split]].
  - apply Hall. vm_compute. reflexivity.
  - destruct (Hstep (replicate 35 0) "35:4" "35" "4" 35 4 eq_refl eq_refl
                eq_refl eq_refl eq_refl) as (Hin & _ & _).
    apply Hin. lia.
  - destruct (Hstep (replicate 35 0) "0:7" "0" "7" 0 7 eq_refl eq_refl
                eq_refl eq_refl eq_refl) as (_ & Hzero & _).
    apply Hzero. reflexivity.
  - destruct (Hstep (replicate 35 0) "36:1" "36" "1" 36 1 eq_refl eq_refl
                eq_refl eq_refl eq_refl) as (_ & _ & Habove).
    apply Habove. lia.
Defined.

(** C10 as stated fails: the only token of ["4_7"] has feature id 4, in
    1..35, and vectorization raises [KeyError] because the dictionary has
    no entry for feature 4. *)
Lemma features_to_vector_not_total_counterexample :
  let fd : gmap string (gmap string Z) := {[ "3" := {[ "7" := 12 ]} ]} in
  ids_in_range "4_7" = true
  /\ features_to_vector fd "4_7" = Raise KeyError.
Proof. cbv zeta. split; vm_compute; reflexivity. Qed.

(** ** [Sample.done] *)

Lemma getitem_zero {A} (l : list A) (x : A) :
  Py.getitem l 0 = Ok x -> exists rest, l = x :: rest.
Proof.
  unfold Py.getitem. destruct l as [|y rest]; [discriminate|].
  cbn. intros [= ->]. by exists rest.
Qed.

Lemma unpack2_ok {A} (l : list A) (a b : A) :
  unpack2 l = Ok (a, b) -> l = [a; b].
Proof. destruct l as [|? [|? [|? ?]]]; simpl; congruence. Qed.

Lemma unpack3_ok {A} (l : list A) (a b c : A) :
  unpack3 l = Ok (a, b, c) -> l = [a; b; c].
Proof. destruct l as [|? [|? [|? [|? ?]]]]; simpl; congruence. Qed.

Lemma bind_ok {A B} (r : result A) (k : A -> result B) (b : B) :
  r ≫= k = Ok b -> exists a, r = Ok a /\ k a = Ok b.
Proof. destruct r as [a|e]; [|discriminate]. intros H. by exists a. Qed.

Section DoneFacts.

Variable float : string -> result fval.

(** What a successful [done] has read, and what it stores. *)
Lemma done_ok (self : Sample) (hasher : option FeatureHasher) (s' : Sample) :
  done float self hasher = Ok s' ->
  exists first rest score features label click_text propensity_text
         click_float click_value propensity_value,
    products self = first :: rest
    /\ Py.split "|" first = [score; features]
    /\ Py.split ":" score = [label; click_text; propensity_text]
    /\ float click_text = Ok click_float
    /\ py_round click_float = Ok click_value
    /\ float propensity_text = Ok propensity_value
    /\ click s' = Some click_value
    /\ propensity s' = Some propensity_value
    /\ products s' = products self.
Proof.
  unfold done. intros H.
  apply bind_ok in H as (line & _ & H).
  apply bind_ok in H as (first & Hfirst & H).
  apply getitem_zero in Hfirst as [rest Hprod].
  apply bind_ok in H as ([score features] & Hsplit & H).
  apply unpack2_ok in Hsplit.
  apply bind_ok in H as ([[label click_text] propensity_text] & Hscore & H).
  apply unpack3_ok in Hscore.
  apply bind_ok in H as (click_float & Hcf & H).
  apply bind_ok in H as (click_value & Hcv & H).
  apply bind_ok in H as (propensity_value & Hpv & H).
  apply bind_ok in H as (v & _ & H).
  apply bind_ok in H as (others & _ & H).
  injection H as <-.
  by exists first, rest, score, features, label, click_text, propensity_text,
    click_float, click_value, propensity_value.
Qed.

End DoneFacts.

(** [round] returns a nearest integer. *)
Lemma round_half_even_nearest (q : Q) :
  (inject_Z (round_half_even q) - (1 # 2) <= q
   /\ q <= inject_Z (round_half_even q) + (1 # 2))%Q.
Proof.
  unfold round_half_even.
  pose proof (Qfloor_le q) as Hlo. pose proof (Qlt_floor q) as Hhi.
  rewrite inject_Z_plus in Hhi. change (inject_Z 1) with 1%Q in Hhi.
  set (f := Qfloor q) in *.
  destruct (Qcompare (q - inject_Z f) (1 # 2)) eqn:E.
  - apply Qeq_alt in E.
    destruct (Z.even f); rewrite ?inject_Z_plus;
      change (inject_Z 1) with 1%Q; split; lra.
  - apply Qlt_alt in E. split; lra.
  - apply Qgt_alt in E. rewrite inject_Z_plus.
    change (inject_Z 1) with 1%Q. split; lra.
Qed.

(** ** Claims on [Sample.done] *)

(** C8.  A finalized session takes its click and its propensity from the
    score field of its first product line and from nothing else: the
    click is [round] of the float read from the second field, a nearest
    integer of it, the propensity is the float read from the third field,
    and replacing the remaining product lines changes neither value. *)
Theorem click_and_propensity_from_first_candidate
    (float : string -> result fval) (self : Sample)
    (hasher : option FeatureHasher) (s' : Sample) :
  done float self hasher = Ok s' ->
  exists first rest score features label click_text propensity_text
         click_float propensity_value,
    products self = first :: rest
    /\ Py.split "|" first = [score; features]
    /\ Py.split ":" score = [label; click_text; propensity_text]
    /\ float click_text = Ok (Fin click_float)
    /\ click s' = Some (round_half_even (this click_float))
    /\ (inject_Z (round_half_even (this click_float)) - (1 # 2)
        <= this click_float
        /\ this click_float
           <= inject_Z (round_half_even (this click_float)) + (1 # 2))%Q
    /\ float propensity_text = Ok propensity_value
    /\ propensity s' = Some propensity_value
    /\ forall (rest' : list string) (s'' : Sample),
         done float (with_products self (first :: rest')) hasher = Ok s'' ->
         click s'' = click s' /\ propensity s'' = propensity s'.
Proof.
  intros H.
  destruct (done_ok float self hasher s' H)
    as (first & rest & score & features & label & ct & pt & cf & cv & pv
        & Hprod & Hsplit & Hscore & Hcf & Hcv & Hpv & Hclick & Hprop & _).
  destruct cf as [q| | |]; try discriminate. injection Hcv as <-.
  exists first, rest, score, features, label, ct, pt, q, pv.
  repeat (split; [assumption || apply round_half_even_nearest|]).
  intros rest' s'' H'.
  destruct (done_ok float _ hasher s'' H')
    as (first' & rest'' & score' & features' & label' & ct' & pt' & cf' & cv'
        & pv' & Hprod' & Hsplit' & Hscore' & Hcf' & Hcv' & Hpv' & Hclick'
        & Hprop' & _).
  cbn [with_products products] in Hprod'. injection Hprod' as <- <-.
  rewrite Hsplit in Hsplit'. injection Hsplit' as <- <-.
  rewrite Hscore in Hscore'. injection Hscore' as <- <- <-.
  rewrite Hcf in Hcf'. injection Hcf' as <-.
  rewrite Hpv in Hpv'. injection Hpv' as <-.
  cbn [py_round] in Hcv'. injection Hcv' as <-.
  by rewrite Hclick, Hclick', Hprop, Hprop'.
Qed.

Lemma click_and_propensity_from_first_candidate_witness :
  let self :=
    {| products := ["0:0.999:0.5|2:3"; "1:0:0.25|2:4"];
       feature_dict := ∅;
       summary := Some "shared |f 1:1";
       product_vecs := None;
       click := None;
       propensity := None |} in
  exists s',
    done decimal_float self None = Ok s'
    /\ forall (rest' : list string) (s'' : Sample),
         done decimal_float
           (with_products self ("0:0.999:0.5|2:3" :: rest')) None = Ok s'' ->
         click s'' = click s' /\ propensity s'' = propensity s'.
Proof.
  cbv zeta.
  destruct (done decimal_float
              {| products := ["0:0.999:0.5|2:3"; "1:0:0.25|2:4"];
                 feature_dict := ∅;
                 summary := Some "shared |f 1:1";
                 product_vecs := None;
                 click := None;
                 propensity := None |} None) as [s'|e] eqn:E;
    [|vm_compute in E; discriminate E].
  exists s'. split; [reflexivity|].
  destruct (click_and_propensity_from_first_candidate _ _ _ _ E)
    as (first & rest & score & features & label & ct & pt & cf & pv
        & Hprod & _ & _ & _ & _ & _ & _ & _ & Hrest).
  cbn [products] in Hprod. injection Hprod as <- <-.
  exact Hrest.
Defined.

(** ** [CriteoDataset.load] *)

Section LoadFacts.

Variable float : string -> result fval.

(** The loop of [load] emits one session per marker it meets, except that
    the session still pending when the loop ends is not emitted. *)
Lemma load_loop_length (self : CriteoDataset.t) (stop_idx start_idx : Z)
    (lines : list string) :
  forall (i : Z) (sample : option Sample) (acc out : list Sample),
    CriteoDataset.load_loop float self stop_idx start_idx i lines sample acc
    = Ok out ->
    length out
    = (length acc
       + Nat.pred (match sample with Some _ => 1 | None => 0 end
                   + CriteoDataset.markers_encountered
                       stop_idx start_idx i lines))%nat.
Proof.
  induction lines as [|raw rest IH]; intros i sample acc out.
  - cbn. intros [= <-]. destruct sample; cbn; lia.
  - cbn [CriteoDataset.load_loop CriteoDataset.markers_encountered].
    destruct (i <? start_idx); [apply IH|].
    destruct (negb (stop_idx =? -1) && (stop_idx <=? i)).
    { intros [= <-]. destruct sample; cbn; lia. }
    destruct (Py.nonempty (Py.strip raw)); cbn [negb andb]; [|apply IH].
    destruct (Py.str_in "shared" (Py.strip raw)).
    + intros H. apply bind_ok in H as (acc' & Hacc & H).
      apply IH in H. rewrite H.
      destruct sample as [s|].
      * apply bind_ok in Hacc as (s' & _ & [= <-]).
        rewrite length_app. cbn. lia.
      * injection Hacc as <-. cbn. lia.
    + intros H. apply IH in H. rewrite H. by destruct sample.
Qed.




End LoadFacts.

(** ** Claims on [CriteoDataset.load] *)

(** C2, evaluated on the code: a log of one session (a marker line and a
    product line) that ends without another marker.  One marker is met and
    no session is emitted, whatever [float] does: the pending session is
    dropped, where the claim says it is finalized and included.  The same
    session is emitted once a further marker line follows. *)
Theorem load_drops_pending_session :
  let lines := ["shared |f 1:1"; "0:0.999:0.5|2:3"] in
  let self := CriteoDataset.Make None [] ∅ in
  CriteoDataset.markers_encountered 100 0 0 lines = 1%nat
  /\ (forall float : string -> result fval,
        CriteoDataset.parse float self 100 0 lines = Ok [])
  /\ (exists first,
        CriteoDataset.parse decimal_float self 100 0
          (lines ++ ["shared |f 1:2"]) = Ok [first]
        /\ products first = ["0:0.999:0.5|2:3"]).
Proof.
  cbv zeta. split; [reflexivity|]. split; [reflexivity|].
  eexists. split; [vm_compute; reflexivity|reflexivity].
Qed.



(** ** [BatchIterator] *)

(** *** Slices *)






(** *** Groups *)




(** *** One pass *)

Section IterFacts.

Variable RandomState : Type.
Variable shuffle : RandomState -> list Sample -> list Sample * RandomState.
Hypothesis shuffle_perm : forall g l, (shuffle g l).1 ≡ₚ l.



End IterFacts.

(** ** Claim on the batcher *)



(** Outside the precondition of C5: a batch size of zero makes the first
    [range] call raise, and a negative one yields no batch at all. *)
Lemma nonpositive_batch_size :
  let sample :=
    {| products := ["p"];
       feature_dict := ∅;
       summary := Some "shared";
       product_vecs := None;
       click := Some 0;
       propensity := Some (of_Z 1) |} in
  let shuffle := fun (g : unit) (l : list Sample) => (l, g) in
  BatchIterator.iter_batches unit shuffle
    (BatchIterator.init [sample] 0 false) tt = Raise ValueError
  /\ exists self',
       BatchIterator.iter_batches unit shuffle
         (BatchIterator.init [sample] (-1) false) tt = Ok ([], self', tt).
Proof. cbv zeta. split; [reflexivity|]. eexists. reflexivity. Qed.

(** ** [run_test_set] as a whole *)

Section RunFacts.

Variable model : list (list Z) -> fval.
Variable RandomState : Type.
Variable shuffle : RandomState -> list Sample -> list Sample * RandomState.

(** A run of [run_test_set] that prints is the evaluation of the batches
    its iterator yielded. *)
Lemma run_test_set_evaluates (test_set : list Sample) (batch_size : Z)
    (cuda : bool) (g : RandomState) (printed : num * num * num) :
  run_test_set model RandomState shuffle test_set batch_size cuda g
  = Ok printed ->
  exists batches self' g',
    BatchIterator.iter RandomState shuffle
      (BatchIterator.init test_set batch_size cuda) g
    = Ok (batches, self', g')
    /\ evaluate model batches = Ok printed.
Proof.
  unfold run_test_set. intros H.
  apply bind_ok in H as ([[batches self'] g'] & Hiter & H).
  by exists batches, self', g'.
Qed.

(** On an empty test set the iterator yields nothing, whatever the batch
    size, and [R / N] divides the [int] 0 by the [int] 0. *)
Lemma run_test_set_empty_raises (batch_size : Z) (cuda : bool)
    (g : RandomState) :
  run_test_set model RandomState shuffle [] batch_size cuda g
  = Raise ZeroDivisionError.
Proof. reflexivity. Qed.

End RunFacts.

(** * Further properties of the code *)

(** ** The vectorisers, token by token *)

Lemma for_each_app {S X} (body : S -> X -> result S) (xs ys : list X) (st : S) :
  for_each body (xs ++ ys) st = for_each body xs st ≫= for_each body ys.
Proof.
  revert st. induction xs as [|x xs IH]; intros st; cbn [for_each app].
  - reflexivity.
  - destruct (body st x) as [st'|e]; cbn [mbind result_bind]; [apply IH|reflexivity].
Qed.

Lemma for_each_invariant {S X} (P : S -> Prop) (body : S -> X -> result S)
    (xs : list X) :
  (forall st x st', In x xs -> P st -> body st x = Ok st' -> P st') ->
  forall st st', P st -> for_each body xs st = Ok st' -> P st'.
Proof.
  induction xs as [|x xs IH]; intros Hbody st st' Hst; cbn [for_each].
  - by intros [= <-].
  - intros H. apply bind_ok in H as (st1 & H1 & H).
    apply (IH (fun st x st' Hin => Hbody st x st' (or_intror Hin)) st1);
      [|exact H].
    by apply (Hbody st x st1 (or_introl eq_refl)).
Qed.

Lemma setitem_slot (vector vector' : list Z) (n x : Z) :
  length vector = 35%nat ->
  Py.setitem vector (n - 1) x = Ok vector' ->
  exists j, slot_of_id n = Some j /\ vector' = <[j := x]> vector.
Proof.
  intros Hlen. unfold Py.setitem, slot_of_id. rewrite Hlen.
  change (Z.of_nat 35) with 35.
  destruct (_ && _); [|discriminate].
  intros [= <-]. by eexists.
Qed.

(** What one iteration of the dictionary vectoriser does to a 35-slot
    vector: nothing, or one write to the slot its feature id addresses. *)
Lemma vector_token_effect fd (vector vector' : list Z) (feature : string) :
  length vector = 35%nat ->
  vector_token fd vector feature = Ok vector' ->
  vector' = vector
  \/ exists n j x, token_feature_id feature = Some (Ok n)
                   /\ slot_of_id n = Some j
                   /\ vector' = <[j := x]> vector.
Proof.
  intros Hlen. unfold vector_token, token_feature_id.
  destruct (Py.str_in "_" feature) eqn:Hu.
  - rewrite andb_false_r. cbn [mbind result_bind]. intros H.
    apply bind_ok in H as ([name value] & Hs & H). apply unpack2_ok in Hs.
    rewrite Hs.
    apply bind_ok in H as (n & Hn & H).
    apply bind_ok in H as (c & Hc & H).
    apply bind_ok in H as ([index|] & Hidx & H).
    + right. destruct (setitem_slot _ _ _ _ Hlen H) as (j & Hj & ->).
      rewrite Hn. by exists n, j, index.
    + left. by injection H.
  - rewrite andb_true_r.
    destruct (Py.str_in ":" feature) eqn:Hcol; cbn [mbind result_bind].
    + intros H. apply bind_ok in H as (v1 & H & [= <-]).
      apply bind_ok in H as ([name value] & Hs & H). apply unpack2_ok in Hs.
      rewrite Hs.
      apply bind_ok in H as (v & Hv & H).
      apply bind_ok in H as (n & Hn & H).
      right. destruct (setitem_slot _ _ _ _ Hlen H) as (j & Hj & ->).
      rewrite Hn. by exists n, j, v.
    + intros [= <-]. by left.
Qed.

Lemma vector_token_length fd (vector vector' : list Z) (feature : string) :
  length vector = 35%nat ->
  vector_token fd vector feature = Ok vector' ->
  length vector' = 35%nat.
Proof.
  intros Hlen H.
  destruct (vector_token_effect fd vector vector' feature Hlen H)
    as [->|(n & j & x & _ & _ & ->)]; [exact Hlen|].
  by rewrite length_insert.
Qed.

Lemma vector_token_frame fd (vector vector' : list Z) (feature : string)
    (k : nat) :
  length vector = 35%nat ->
  vector_token fd vector feature = Ok vector' ->
  addresses k feature = false ->
  vector' !! k = vector !! k.
Proof.
  intros Hlen H Hk.
  destruct (vector_token_effect fd vector vector' feature Hlen H)
    as [->|(n & j & x & Hid & Hj & ->)]; [reflexivity|].
  apply list_lookup_insert_ne. intros <-.
  unfold addresses in Hk. rewrite Hid in Hk.
  by apply bool_decide_eq_false in Hk.
Qed.

Lemma for_each_vector_length fd (tokens : list string) (vector vector' : list Z) :
  length vector = 35%nat ->
  for_each (vector_token fd) tokens vector = Ok vector' ->
  length vector' = 35%nat.
Proof.
  apply (for_each_invariant (fun v : list Z => length v = 35%nat)).
  intros st x st' _. apply vector_token_length.
Qed.

Lemma for_each_vector_frame fd (tokens : list string) (k : nat) :
  forallb (fun feature => negb (addresses k feature)) tokens = true ->
  forall vector vector' : list Z,
    length vector = 35%nat ->
    for_each (vector_token fd) tokens vector = Ok vector' ->
    vector' !! k = vector !! k.
Proof.
  induction tokens as [|tok tokens IH]; intros Hno vector vector' Hlen;
    cbn [for_each].
  - by intros [= <-].
  - cbn [forallb] in Hno. apply andb_true_iff in Hno as [Htok Hno].
    apply negb_true_iff in Htok. intros H.
    apply bind_ok in H as (v1 & H1 & H).
    rewrite (IH Hno v1 vector'); [|by eapply vector_token_length|exact H].
    by eapply vector_token_frame.
Qed.

(** X1.  Whenever dictionary-mode vectorization returns, it returns
    exactly 35 slots, whatever the tokens were. *)
Theorem features_to_vector_length
    (fd : gmap string (gmap string Z)) (features : string) (vector : list Z) :
  features_to_vector fd features = Ok vector -> length vector = 35%nat.
Proof.
  unfold features_to_vector. apply for_each_vector_length.
  apply length_replicate.
Qed.

Lemma features_to_vector_length_witness :
  exists vector,
    features_to_vector {[ "3" := {[ "7" := 12 ]} ]} "junk 0:4 -2:9 3_7" = Ok vector
    /\ length vector = 35%nat.
Proof.
  destruct (features_to_vector {[ "3" := {[ "7" := 12 ]} ]} "junk 0:4 -2:9 3_7")
    as [vector|e] eqn:E; [|vm_compute in E; discriminate E].
  exists vector. split; [reflexivity|].
  exact (features_to_vector_length _ _ _ E).
Defined.

Lemma slot_setitem (vector : list Z) (n x : Z) (k : nat) :
  length vector = 35%nat ->
  slot_of_id n = Some k ->
  Py.setitem vector (n - 1) x = Ok (<[k := x]> vector) /\ (k < 35)%nat.
Proof.
  intros Hlen. unfold Py.setitem, slot_of_id. rewrite Hlen.
  change (Z.of_nat 35) with 35.
  destruct (_ && _) eqn:Hb; [|discriminate].
  intros [= <-]. split; [reflexivity|]. lia.
Qed.

(** The slot a token wrote keeps the value when no later token addresses
    it. *)
Lemma written_slot_survives fd (before after : list string) (feature : string)
    (x : Z) (k : nat) (vector : list Z) :
  (forall v0 : list Z, length v0 = 35%nat ->
     vector_token fd v0 feature = Ok (<[k := x]> v0)) ->
  (k < 35)%nat ->
  forallb (fun f => negb (addresses k f)) after = true ->
  for_each (vector_token fd) (before ++ feature :: after) (replicate 35 0)
  = Ok vector ->
  vector !! k = Some x.
Proof.
  intros Htok Hk Hafter H. rewrite for_each_app in H.
  apply bind_ok in H as (v0 & H0 & H).
  assert (Hlen0 : length v0 = 35%nat).
  { eapply for_each_vector_length; [|exact H0]. apply length_replicate. }
  cbn [for_each] in H. rewrite (Htok v0 Hlen0) in H.
  cbn [mbind result_bind] in H.
  rewrite (for_each_vector_frame fd after k Hafter (<[k := x]> v0) vector);
    [|by rewrite length_insert|exact H].
  apply list_lookup_insert_eq. lia.
Qed.

(** X2.  A slot that no token of the feature string addresses holds 0 in
    the vector dictionary-mode vectorization returns: absent features
    default to zero. *)
Theorem unaddressed_slot_stays_zero
    (fd : gmap string (gmap string Z)) (features : string)
    (vector : list Z) (k : nat) :
  features_to_vector fd features = Ok vector ->
  (k < 35)%nat ->
  forallb (fun feature => negb (addresses k feature)) (Py.split_ws features)
  = true ->
  vector !! k = Some 0.
Proof.
  unfold features_to_vector. intros H Hk Hno.
  rewrite (for_each_vector_frame fd _ k Hno (replicate 35 0) vector);
    [|apply length_replicate|exact H].
  by apply lookup_replicate_2.
Qed.

Lemma unaddressed_slot_stays_zero_witness :
  exists vector,
    features_to_vector {[ "3" := {[ "7" := 12 ]} ]} "1:5 3_7 0:9" = Ok vector
    /\ vector !! 1%nat = Some 0.
Proof.
  destruct (features_to_vector {[ "3" := {[ "7" := 12 ]} ]} "1:5 3_7 0:9")
    as [vector|e] eqn:E; [|vm_compute in E; discriminate E].
  exists vector. split; [reflexivity|].
  apply (unaddressed_slot_stays_zero _ _ _ _ E); [lia|].
  vm_compute. reflexivity.
Defined.

(** X3.  The value of a numeric token [id:value] is what the returned
    vector holds in the slot the id addresses, provided no later token
    addresses that slot: among tokens for one slot the last one wins. *)
Theorem numeric_token_value_lands
    (fd : gmap string (gmap string Z)) (features : string)
    (before after : list string) (feature name value : string)
    (n v : Z) (k : nat) (vector : list Z) :
  Py.split_ws features = before ++ feature :: after ->
  Py.str_in "_" feature = false ->
  Py.split ":" feature = [name; value] ->
  Py.int name = Ok n ->
  Py.int value = Ok v ->
  slot_of_id n = Some k ->
  forallb (fun f => negb (addresses k f)) after = true ->
  features_to_vector fd features = Ok vector ->
  vector !! k = Some v.
Proof.
  intros Hsplit Hu Hs Hn Hv Hslot Hafter H.
  unfold features_to_vector in H. rewrite Hsplit in H.
  destruct (slot_setitem (replicate 35 0) n v k (length_replicate _ _) Hslot)
    as [_ Hk].
  apply (written_slot_survives fd before after feature v k vector);
    try assumption.
  intros v0 Hlen0.
  rewrite (vector_token_numeric fd v0 feature name value n v) by assumption.
  by apply slot_setitem.
Qed.

Lemma numeric_token_value_lands_witness :
  exists vector,
    features_to_vector ∅ "2:1 2:7 5:3 junk" = Ok vector
    /\ vector !! 1%nat = Some 7.
Proof.
  destruct (features_to_vector ∅ "2:1 2:7 5:3 junk")
    as [vector|e] eqn:E; [|vm_compute in E; discriminate E].
  exists vector. split; [reflexivity|].
  apply (numeric_token_value_lands ∅ "2:1 2:7 5:3 junk" ["2:1"] ["5:3"; "junk"]
           "2:7" "2" "7" 2 7 1 vector); try reflexivity.
  exact E.
Defined.

(** X4.  For a categorical token [id_category[:weight]] whose category is
    listed in the feature dictionary under the id, the returned vector
    holds the dictionary's index in the slot the id addresses, provided no
    later token addresses that slot. *)
Theorem categorical_token_index_lands
    (fd : gmap string (gmap string Z)) (features : string)
    (before after : list string) (feature name value : string)
    (n c index : Z) (categories : gmap string Z) (k : nat)
    (vector : list Z) :
  Py.split_ws features = before ++ feature :: after ->
  Py.split "_" feature = [name; value] ->
  Py.int name = Ok n ->
  Py.int (category_text value) = Ok c ->
  fd !! Py.str n = Some categories ->
  categories !! Py.str c = Some index ->
  slot_of_id n = Some k ->
  forallb (fun f => negb (addresses k f)) after = true ->
  features_to_vector fd features = Ok vector ->
  vector !! k = Some index.
Proof.
  intros Hsplit Hs Hn Hc Hfd Hcat Hslot Hafter H.
  unfold features_to_vector in H. rewrite Hsplit in H.
  destruct (slot_setitem (replicate 35 0) n index k (length_replicate _ _) Hslot)
    as [_ Hk].
  apply (written_slot_survives fd before after feature index k vector);
    try assumption.
  intros v0 Hlen0. unfold vector_token.
  rewrite (split_two_str_in _ _ _ _ Hs), Hs, andb_false_r.
  cbn [unpack2 mbind result_bind]. rewrite Hn, Hc.
  cbn [mbind result_bind]. unfold get_category_index.
  rewrite Hfd, Hcat. cbn [mbind result_bind].
  by apply slot_setitem.
Qed.

Lemma categorical_token_index_lands_witness :
  exists vector,
    features_to_vector {[ "3" := {[ "7" := 12 ]} ]} "3:4 3_007:0.5 1:1" = Ok vector
    /\ vector !! 2%nat = Some 12.
Proof.
  destruct (features_to_vector {[ "3" := {[ "7" := 12 ]} ]} "3:4 3_007:0.5 1:1")
    as [vector|e] eqn:E; [|vm_compute in E; discriminate E].
  exists vector. split; [reflexivity|].
  apply (categorical_token_index_lands {[ "3" := {[ "7" := 12 ]} ]}
           "3:4 3_007:0.5 1:1" ["3:4"] ["1:1"] "3_007:0.5" "3" "007:0.5"
           3 7 12 {[ "7" := 12 ]} 2 vector); try reflexivity.
  exact E.
Defined.

(** ** The hashed vectoriser *)

Lemma setitem_length_eq {A} (l l' : list A) (i : Z) (x : A) :
  Py.setitem l i x = Ok l' -> length l' = length l.
Proof. apply setitem_length. Qed.

(** One iteration keeps the number of numeric slots, and either leaves the
    categorical dictionary alone or files the token's category text under
    its feature name. *)
Lemma hashed_token_effect (numerical numerical' : list Z)
    (categorical categorical' : gmap string string) (feature : string) :
  hashed_token (numerical, categorical) feature = Ok (numerical', categorical') ->
  length numerical' = length numerical
  /\ match categorical_name feature with
     | Some name =>
         exists value, Py.split "_" feature = [name; value]
                       /\ categorical' = <[name := category_text value]> categorical
     | None => categorical' = categorical
     end.
Proof.
  unfold hashed_token, categorical_name.
  destruct (Py.str_in "_" feature) eqn:Hu.
  - rewrite andb_false_r. cbn [mbind result_bind]. intros H.
    apply bind_ok in H as ([name value] & Hs & [= <- <-]).
    apply unpack2_ok in Hs. rewrite Hs. split; [reflexivity|]. by exists value.
  - rewrite andb_true_r.
    destruct (Py.str_in ":" feature); cbn [mbind result_bind].
    + intros H. apply bind_ok in H as (num1 & H & [= <- <-]).
      apply bind_ok in H as ([name value] & _ & H).
      apply bind_ok in H as (v & _ & H).
      apply bind_ok in H as (n & _ & H).
      split; [by eapply setitem_length_eq|reflexivity].
    + by intros [= <- <-].
Qed.

(** X5.  Whenever the hashed vectoriser returns, its numeric part has
    exactly two slots. *)
Theorem features_to_vector_hashed_two_slots
    (features : string) (numerical : list Z)
    (categorical : gmap string string) :
  features_to_vector_hashed features = Ok (numerical, categorical) ->
  length numerical = 2%nat.
Proof.
  unfold features_to_vector_hashed. intros H.
  apply (for_each_invariant
           (fun st : list Z * gmap string string => length st.1 = 2%nat)
           hashed_token (Py.split_ws features)
           (fun st x st' _ Hst Hbody =>
              ltac:(destruct st as [n0 c0], st' as [n1 c1];
                    apply hashed_token_effect in Hbody as [Hl _];
                    cbn [fst] in *; congruence))
           ([0; 0], ∅) (numerical, categorical) eq_refl H).
Qed.

Lemma features_to_vector_hashed_two_slots_witness :
  exists numerical categorical,
    features_to_vector_hashed "1:4 7_abc:1 0:9 7_x" = Ok (numerical, categorical)
    /\ length numerical = 2%nat.
Proof.
  destruct (features_to_vector_hashed "1:4 7_abc:1 0:9 7_x")
    as [[numerical categorical]|e] eqn:E; [|vm_compute in E; discriminate E].
  exists numerical, categorical. split; [reflexivity|].
  exact (features_to_vector_hashed_two_slots _ _ _ E).
Defined.

Lemma for_each_hashed_frame (tokens : list string) (name : string) :
  forallb (fun f => negb (bool_decide (categorical_name f = Some name))) tokens
  = true ->
  forall (st st' : list Z * gmap string string),
    for_each hashed_token tokens st = Ok st' ->
    st'.2 !! name = st.2 !! name.
Proof.
  induction tokens as [|tok tokens IH]; intros Hno st st'; cbn [for_each].
  - by intros [= <-].
  - cbn [forallb] in Hno. apply andb_true_iff in Hno as [Htok Hno].
    apply negb_true_iff, bool_decide_eq_false in Htok.
    intros H. apply bind_ok in H as (st1 & H1 & H).
    rewrite (IH Hno st1 st' H).
    destruct st as [n0 c0], st1 as [n1 c1].
    apply hashed_token_effect in H1 as [_ H1]. cbn [snd].
    destruct (categorical_name tok) as [nm|]; [|by subst].
    destruct H1 as (value & _ & ->).
    apply lookup_insert_ne. congruence.
Qed.

(** X6.  The hashed vectoriser files a categorical token's category text,
    as written and cut at its first [":"], under the token's feature name
    as written; the returned dictionary holds it unless a later
    categorical token has the same feature name. *)
Theorem hashed_category_recorded
    (features : string) (before after : list string)
    (feature name value : string)
    (numerical : list Z) (categorical : gmap string string) :
  Py.split_ws features = before ++ feature :: after ->
  Py.split "_" feature = [name; value] ->
  forallb (fun f => negb (bool_decide (categorical_name f = Some name))) after
  = true ->
  features_to_vector_hashed features = Ok (numerical, categorical) ->
  categorical !! name = Some (category_text value).
Proof.
  intros Hsplit Hs Hafter H. unfold features_to_vector_hashed in H.
  rewrite Hsplit, for_each_app in H.
  apply bind_ok in H as ([n0 c0] & _ & H). cbn [for_each] in H.
  apply bind_ok in H as ([n1 c1] & H1 & H).
  apply (for_each_hashed_frame after name Hafter) in H. cbn [snd] in H.
  rewrite H. apply hashed_token_effect in H1 as [_ H1].
  unfold categorical_name in H1.
  rewrite (split_two_str_in _ _ _ _ Hs), Hs in H1.
  destruct H1 as (value' & [= <-] & ->). apply lookup_insert_eq.
Qed.

Lemma hashed_category_recorded_witness :
  exists numerical categorical,
    features_to_vector_hashed "07_x:1 07_abc:2 7_y 1:3" = Ok (numerical, categorical)
    /\ categorical !! "07" = Some "abc".
Proof.
  destruct (features_to_vector_hashed "07_x:1 07_abc:2 7_y 1:3")
    as [[numerical categorical]|e] eqn:E; [|vm_compute in E; discriminate E].
  exists numerical, categorical. split; [reflexivity|].
  apply (hashed_category_recorded "07_x:1 07_abc:2 7_y 1:3" ["07_x:1"]
           ["7_y"; "1:3"] "07_abc:2" "07" "abc:2" numerical categorical);
    try reflexivity.
  exact E.
Defined.

(** ** [Sample.done] and the loader, session by session *)

Lemma map_result_ok {X Y} (f : X -> result Y) (xs : list X) (ys : list Y) :
  map_result f xs = Ok ys -> Forall2 (fun x y => f x = Ok y) xs ys.
Proof.
  revert ys. induction xs as [|x xs IH]; intros ys; cbn [map_result].
  - intros [= <-]. constructor.
  - intros H. apply bind_ok in H as (y & Hy & H).
    apply bind_ok in H as (ys' & Hys & [= <-]).
    constructor; [exact Hy|by apply IH].
Qed.

Lemma vectorise_dense fd (features : string) (v : product_vec) :
  vectorise fd None features = Ok v -> dense35 v = true.
Proof.
  unfold vectorise. intros H. apply bind_ok in H as (l & Hl & [= <-]).
  unfold features_to_vector in Hl.
  apply for_each_vector_length in Hl; [|apply length_replicate].
  cbn. by rewrite Hl.
Qed.

Section DoneMore.

Variable float : string -> result fval.

(** What a successful [done] stores as product vectors. *)
Lemma done_vectors (self : Sample) (hasher : option FeatureHasher)
    (s' : Sample) :
  done float self hasher = Ok s' ->
  products s' = products self
  /\ summary s' = summary self
  /\ feature_dict s' = feature_dict self
  /\ is_Some (click s') /\ is_Some (propensity s')
  /\ products self <> []
  /\ exists vs, product_vecs s' = Some vs
                /\ Forall2 (fun (p : string) v =>
                              exists features,
                                vectorise (feature_dict self) hasher features
                                = Ok v)
                     (products self) vs.
Proof.
  unfold done. intros H.
  apply bind_ok in H as (line & _ & H).
  apply bind_ok in H as (first & Hfirst & H).
  apply getitem_zero in Hfirst as [rest Hprod].
  apply bind_ok in H as ([score features] & _ & H).
  apply bind_ok in H as ([[label click_text] propensity_text] & _ & H).
  apply bind_ok in H as (click_float & _ & H).
  apply bind_ok in H as (click_value & _ & H).
  apply bind_ok in H as (propensity_value & _ & H).
  apply bind_ok in H as (v & Hv & H).
  apply bind_ok in H as (others & Hothers & H).
  injection H as <-. cbn. rewrite Hprod in *. cbn [List.tl] in Hothers.
  repeat split; try done.
  eexists. split; [reflexivity|].
  constructor; [by eexists|].
  apply map_result_ok in Hothers.
  eapply Forall2_impl; [exact Hothers|]. intros p v' Hp. cbn beta in Hp.
  eexists. exact Hp.
Qed.

End DoneMore.

Lemma vectors_dense fd (ps : list string) (vs : list product_vec) :
  Forall2 (fun (p : string) v =>
             exists features, vectorise fd None features = Ok v) ps vs ->
  forallb dense35 vs = true.
Proof.
  induction 1 as [|p v ps vs' [features Hv] _ IH]; cbn [forallb];
    [reflexivity|].
  by rewrite (vectorise_dense _ _ _ Hv), IH.
Qed.

(** X7.  A session that [done] finalizes in dictionary mode has its click
    and propensity set and exactly one 35-slot vector per product line,
    with at least one product line; its product lines, summary and
    dictionary are as before. *)
Theorem done_finalizes
    (float : string -> result fval) (self s' : Sample) :
  done float self None = Ok s' ->
  finalized s'
  /\ products s' = products self
  /\ summary s' = summary self
  /\ feature_dict s' = feature_dict self.
Proof.
  intros H.
  destruct (done_vectors float self None s' H)
    as (Hp & Hs & Hfd & Hc & Hpr & Hne & vs & Hvs & Hall).
  split; [|split; [exact Hp|split; [exact Hs|exact Hfd]]].
  unfold finalized. split; [exact Hc|]. split; [exact Hpr|].
  exists vs. rewrite Hp. split; [exact Hvs|].
  split; [symmetry; by eapply Forall2_length|]. split; [exact Hne|].
  by eapply vectors_dense.
Qed.

Lemma done_finalizes_witness :
  let self :=
    {| products := ["0:0.999:0.5|2:3"; "1:0:0.25|2:4"];
       feature_dict := ∅;
       summary := Some "shared |f 1:1";
       product_vecs := None;
       click := None;
       propensity := None |} in
  exists s', done decimal_float self None = Ok s' /\ finalized s'.
Proof.
  cbv zeta.
  destruct (done decimal_float
              {| products := ["0:0.999:0.5|2:3"; "1:0:0.25|2:4"];
                 feature_dict := ∅;
                 summary := Some "shared |f 1:1";
                 product_vecs := None;
                 click := None;
                 propensity := None |} None) as [s'|e] eqn:E;
    [|vm_compute in E; discriminate E].
  exists s'. split; [reflexivity|].
  exact (proj1 (done_finalizes _ _ _ E)).
Defined.

(** ** The loader as a whole *)

Section LoadMore.

Variable float : string -> result fval.

Lemma done_keeps_shape (s s' : Sample) (h : option FeatureHasher) :
  done float s h = Ok s' -> well_shaped s -> well_shaped s'.
Proof.
  intros H. apply done_vectors in H as (Hp & Hs & _).
  unfold well_shaped. by rewrite Hp, Hs.
Qed.

Lemma done_dictionary_finalized (s s' : Sample) :
  done float s None = Ok s' -> finalized s'.
Proof.
  intros H.
  apply done_vectors in H as (Hp & _ & _ & Hc & Hpr & Hne & vs & Hvs & Hall).
  split; [exact Hc|]. split; [exact Hpr|].
  exists vs. rewrite Hp. split; [exact Hvs|].
  split; [symmetry; by eapply Forall2_length|]. split; [exact Hne|].
  by eapply vectors_dense.
Qed.

(** The loop keeps every emitted session finalized and well shaped, and
    the pending one well shaped. *)
Lemma load_loop_sessions (self : CriteoDataset.t) (stop_idx start_idx : Z)
    (lines : list string) :
  CriteoDataset.hasher self = None ->
  forall (i : Z) (sample : option Sample) (acc out : list Sample),
    match sample with
    | Some s => well_shaped s
                /\ feature_dict s = CriteoDataset.feature_dict self
    | None => True
    end ->
    Forall (fun s => finalized s /\ well_shaped s
                     /\ feature_dict s = CriteoDataset.feature_dict self) acc ->
    CriteoDataset.load_loop float self stop_idx start_idx i lines sample acc
    = Ok out ->
    Forall (fun s => finalized s /\ well_shaped s
                     /\ feature_dict s = CriteoDataset.feature_dict self) out.
Proof.
  intros Hh.
  induction lines as [|raw rest IH]; intros i sample acc out Hs Hacc.
  - cbn. by intros [= <-].
  - cbn [CriteoDataset.load_loop].
    destruct (i <? start_idx); [by apply IH|].
    destruct (negb (stop_idx =? -1) && (stop_idx <=? i)); [by intros [= <-]|].
    destruct (Py.nonempty (Py.strip raw)) eqn:Hne; cbn [negb]; [|by apply IH].
    destruct (Py.str_in "shared" (Py.strip raw)) eqn:Hm.
    + intros H. apply bind_ok in H as (acc' & Hacc' & H).
      apply (IH _ _ _ _) in H; [exact H| |].
      * split; [|reflexivity]. split; [|constructor]. by eexists.
      * destruct sample as [s|]; [|by injection Hacc' as <-].
        apply bind_ok in Hacc' as (s' & Hd & [= <-]).
        destruct Hs as [Hshape Hfd].
        apply Forall_app. split; [exact Hacc|].
        constructor; [|constructor]. rewrite Hh in Hd.
        split; [by eapply done_dictionary_finalized|].
        split; [by eapply done_keeps_shape|].
        apply done_vectors in Hd as (_ & _ & -> & _). exact Hfd.
    + apply IH; [|exact Hacc].
      destruct sample as [s|]; [|exact I].
      destruct Hs as [[Hsum Hprods] Hfd]. split; [|exact Hfd].
      split; [exact Hsum|]. cbn [append_product products].
      apply Forall_app. split; [exact Hprods|]. by repeat constructor.
Qed.

(** Once the index has reached the cutoff nothing more is read. *)
Lemma load_loop_past_cutoff (self : CriteoDataset.t) (stop_idx start_idx : Z)
    (lines : list string) :
  stop_idx <> -1 ->
  forall (i : Z) (sample : option Sample) (acc : list Sample),
    stop_idx <= i ->
    CriteoDataset.load_loop float self stop_idx start_idx i lines sample acc
    = Ok acc.
Proof.
  intros Hstop. induction lines as [|raw rest IH]; intros i sample acc Hi.
  - reflexivity.
  - cbn [CriteoDataset.load_loop].
    destruct (i <? start_idx); [apply IH; lia|].
    destruct (Z.eqb_spec stop_idx (-1)) as [?|_]; [done|].
    destruct (Z.leb_spec stop_idx i) as [_|?]; [reflexivity|lia].
Qed.

Lemma load_loop_cutoff (self : CriteoDataset.t) (stop_idx start_idx : Z)
    (lines : list string) :
  stop_idx <> -1 ->
  forall (i : Z) (sample : option Sample) (acc : list Sample),
    CriteoDataset.load_loop float self stop_idx start_idx i lines sample acc
    = CriteoDataset.load_loop float self stop_idx start_idx i
        (take (Z.to_nat (stop_idx - i)) lines) sample acc.
Proof.
  intros Hstop. induction lines as [|raw rest IH]; intros i sample acc.
  - by rewrite take_nil.
  - destruct (Z.le_gt_cases stop_idx i) as [Hle|Hgt].
    { by rewrite !load_loop_past_cutoff by assumption. }
    replace (Z.to_nat (stop_idx - i)) with (S (Z.to_nat (stop_idx - (i + 1))))
      by lia.
    cbn [take CriteoDataset.load_loop].
    destruct (i <? start_idx); [apply IH|].
    destruct (negb (stop_idx =? -1) && (stop_idx <=? i)); [reflexivity|].
    destruct (negb (Py.nonempty (Py.strip raw))); [apply IH|].
    destruct (Py.str_in "shared" (Py.strip raw)).
    + destruct (match sample with Some s => _ | None => _ end) as [acc'|e];
        cbn [mbind result_bind]; [apply IH|reflexivity].
    + apply IH.
Qed.

(** Without a cutoff, or with one at or past the end, every line is read:
    the two runs agree. *)
Lemma load_loop_no_cutoff (self : CriteoDataset.t) (stop_idx start_idx : Z)
    (lines : list string) :
  forall (i : Z) (sample : option Sample) (acc : list Sample),
    i + Z.of_nat (length lines) <= stop_idx ->
    CriteoDataset.load_loop float self stop_idx start_idx i lines sample acc
    = CriteoDataset.load_loop float self (-1) start_idx i lines sample acc.
Proof.
  induction lines as [|raw rest IH]; intros i sample acc Hi.
  - reflexivity.
  - cbn [length] in Hi. cbn [CriteoDataset.load_loop].
    destruct (i <? start_idx); [apply IH; lia|].
    destruct (Z.leb_spec stop_idx i) as [?|_]; [lia|].
    rewrite andb_false_r. cbn [Z.eqb negb andb].
    destruct (negb (Py.nonempty (Py.strip raw))); [apply IH; lia|].
    destruct (Py.str_in "shared" (Py.strip raw)).
    + destruct (match sample with Some s => _ | None => _ end) as [acc'|e];
        cbn [mbind result_bind]; [apply IH; lia|reflexivity].
    + apply IH. lia.
Qed.

(** Lines in front of the start offset are passed over unread. *)
Lemma load_loop_skip (self : CriteoDataset.t) (stop_idx start_idx : Z)
    (skipped rest : list string) :
  forall (i : Z) (sample : option Sample) (acc : list Sample),
    i + Z.of_nat (length skipped) <= start_idx ->
    CriteoDataset.load_loop float self stop_idx start_idx i
      (skipped ++ rest) sample acc
    = CriteoDataset.load_loop float self stop_idx start_idx
        (i + Z.of_nat (length skipped)) rest sample acc.
Proof.
  induction skipped as [|raw skipped IH]; intros i sample acc Hi.
  - cbn. by rewrite Z.add_0_r.
  - cbn [length] in Hi. cbn [app CriteoDataset.load_loop].
    destruct (Z.ltb_spec i start_idx) as [_|?]; [|lia].
    rewrite IH by lia. f_equal. cbn [length]. lia.
Qed.

End LoadMore.

(** X8.  Every session a dictionary-mode parse returns is finalized (click
    and propensity set, one 35-slot vector per product line, at least one
    product line), has a non-blank marker line as summary and non-blank
    product lines without marker, and carries the dataset's feature
    dictionary. *)
Theorem parsed_sessions_finalized
    (float : string -> result fval) (self : CriteoDataset.t)
    (stop_idx start_idx : Z) (lines : list string) (out : list Sample) :
  CriteoDataset.hasher self = None ->
  CriteoDataset.samples self = [] ->
  CriteoDataset.parse float self stop_idx start_idx lines = Ok out ->
  Forall (fun s => finalized s /\ well_shaped s
                   /\ feature_dict s = CriteoDataset.feature_dict self) out.
Proof.
  intros Hh Hs H. unfold CriteoDataset.parse in H. rewrite Hs in H.
  by apply (load_loop_sessions float self stop_idx start_idx lines Hh
              0 None [] out I (List.Forall_nil _)).
Qed.

Lemma parsed_sessions_finalized_witness :
  let lines := ["shared |f 1:1"; "0:0.999:0.5|2:3"; ""; "shared |f 1:2";
                "0:0:0.25|2:1"; "0|2:5"; "shared |f"] in
  let self := CriteoDataset.Make None [] ∅ in
  exists out,
    CriteoDataset.parse decimal_float self 100 0 lines = Ok out
    /\ length out = 2%nat
    /\ Forall finalized out.
Proof.
  cbv zeta.
  destruct (CriteoDataset.parse decimal_float (CriteoDataset.Make None [] ∅)
              100 0 ["shared |f 1:1"; "0:0.999:0.5|2:3"; ""; "shared |f 1:2";
                     "0:0:0.25|2:1"; "0|2:5"; "shared |f"])
    as [out|e] eqn:E; [|vm_compute in E; discriminate E].
  exists out. split; [reflexivity|]. split.
  - by apply load_loop_length in E.
  - eapply Forall_impl;
      [exact (parsed_sessions_finalized decimal_float
                (CriteoDataset.Make None [] ∅) _ _ _ _ eq_refl eq_refl E)|].
    by intros s [Hf _].
Defined.

(** X9.  A parse that starts from an empty sample list returns one session
    fewer than the markers it met, and none when it met none: each marker
    emits the session before it, and nothing emits the last one. *)
Theorem parse_emits_all_but_last
    (float : string -> result fval) (self : CriteoDataset.t)
    (stop_idx start_idx : Z) (lines : list string) (out : list Sample) :
  CriteoDataset.samples self = [] ->
  CriteoDataset.parse float self stop_idx start_idx lines = Ok out ->
  length out
  = Nat.pred (CriteoDataset.markers_encountered stop_idx start_idx 0 lines).
Proof.
  intros Hs H. unfold CriteoDataset.parse in H.
  apply load_loop_length in H. by rewrite H, Hs.
Qed.

Lemma parse_emits_all_but_last_witness :
  let lines := ["shared |f 1:1"; "0:0.999:0.5|2:3"; ""; "shared |f 1:2";
                "0:0:0.25|2:1"; "0|2:5"; "shared |f"] in
  let self := CriteoDataset.Make None [] ∅ in
  exists out,
    CriteoDataset.parse decimal_float self 100 0 lines = Ok out
    /\ CriteoDataset.markers_encountered 100 0 0 lines = 3%nat
    /\ length out = 2%nat.
Proof.
  cbv zeta.
  destruct (CriteoDataset.parse decimal_float (CriteoDataset.Make None [] ∅)
              100 0 ["shared |f 1:1"; "0:0.999:0.5|2:3"; ""; "shared |f 1:2";
                     "0:0:0.25|2:1"; "0|2:5"; "shared |f"])
    as [out|e] eqn:E; [|vm_compute in E; discriminate E].
  exists out. split; [reflexivity|]. split; [reflexivity|].
  exact (parse_emits_all_but_last decimal_float
           (CriteoDataset.Make None [] ∅) _ _ _ _ eq_refl E).
Defined.

(** X10.  With a cutoff [stop_idx] other than -1 the parse reads no line
    at raw index [stop_idx] or beyond, blank lines counted: it is the
    parse of the first [stop_idx] lines.  With the cutoff at or past the
    end of the file it is the parse without cutoff. *)
Theorem parse_cutoff
    (float : string -> result fval) (self : CriteoDataset.t)
    (stop_idx start_idx : Z) (lines : list string) :
  stop_idx <> -1 ->
  CriteoDataset.parse float self stop_idx start_idx lines
  = CriteoDataset.parse float self stop_idx start_idx
      (take (Z.to_nat stop_idx) lines)
  /\ (Z.of_nat (length lines) <= stop_idx ->
      CriteoDataset.parse float self stop_idx start_idx lines
      = CriteoDataset.parse float self (-1) start_idx lines).
Proof.
  intros Hstop. unfold CriteoDataset.parse. split.
  - rewrite (load_loop_cutoff float self stop_idx start_idx lines Hstop 0).
    by rewrite Z.sub_0_r.
  - intros Hlen. by apply load_loop_no_cutoff.
Qed.

Lemma parse_cutoff_witness :
  let lines := ["shared |f 1:1"; "0:0.999:0.5|2:3"; "shared |f 1:2";
                "0:0:0.25|2:1"; "shared |f"] in
  let self := CriteoDataset.Make None [] ∅ in
  3 <> -1
  /\ CriteoDataset.parse decimal_float self 3 0 lines
     = CriteoDataset.parse decimal_float self 3 0 (take 3 lines)
  /\ exists s, CriteoDataset.parse decimal_float self 3 0 lines = Ok [s].
Proof.
  cbv zeta. split; [lia|]. split.
  - apply (parse_cutoff decimal_float (CriteoDataset.Make None [] ∅) 3 0). lia.
  - eexists. vm_compute. reflexivity.
Defined.

(** X11.  The lines in front of the start offset are not read: replacing
    them by any other lines, as many, leaves the parse as it is. *)
Theorem parse_start_offset
    (float : string -> result fval) (self : CriteoDataset.t)
    (stop_idx start_idx : Z) (skipped skipped' rest : list string) :
  length skipped = length skipped' ->
  Z.of_nat (length skipped) <= start_idx ->
  CriteoDataset.parse float self stop_idx start_idx (skipped ++ rest)
  = CriteoDataset.parse float self stop_idx start_idx (skipped' ++ rest).
Proof.
  intros Hlen Hstart. unfold CriteoDataset.parse.
  rewrite !load_loop_skip by lia. by rewrite Hlen.
Qed.

Lemma parse_start_offset_witness :
  let self := CriteoDataset.Make None [] ∅ in
  let rest := ["shared |f 1:1"; "0:0.999:0.5|2:3"; "shared |f"] in
  CriteoDataset.parse decimal_float self 100 2
    (["shared |f 1:1"; "shared |f 1:1"] ++ rest)
  = CriteoDataset.parse decimal_float self 100 2 (["junk"; ""] ++ rest).
Proof.
  cbv zeta. apply parse_start_offset; [reflexivity|cbn; lia].
Defined.

Lemma done_without_products (float : string -> result fval) (s : Sample)
    (h : option FeatureHasher) :
  is_Some (summary s) -> products s = [] ->
  done float s h = Raise IndexError.
Proof.
  intros [line Hs] Hp. unfold done. by rewrite Hs, Hp.
Qed.

Lemma load_loop_empty_session (float : string -> result fval)
    (self : CriteoDataset.t) (marker' : string) (blanks rest : list string)
    (s : Sample) (acc : list Sample) :
  Py.nonempty (Py.strip marker') = true ->
  Py.str_in "shared" (Py.strip marker') = true ->
  forallb (fun l => negb (Py.nonempty (Py.strip l))) blanks = true ->
  is_Some (summary s) -> products s = [] ->
  forall i : Z,
    0 <= i ->
    CriteoDataset.load_loop float self (-1) 0 i (blanks ++ marker' :: rest)
      (Some s) acc
    = Raise IndexError.
Proof.
  intros Hn Hm Hblank Hs Hp.
  induction blanks as [|b blanks IH]; intros i Hi;
    cbn [app CriteoDataset.load_loop];
    (destruct (Z.ltb_spec i 0) as [?|_]; [lia|]);
    cbn [Z.eqb negb andb].
  - rewrite Hn, Hm. cbn [negb].
    by rewrite (done_without_products float s _ Hs Hp).
  - cbn [forallb] in Hblank. apply andb_true_iff in Hblank as [Hb Hblank].
    rewrite Hb. apply IH; [exact Hblank|lia].
Qed.

(** X12.  A session without product line makes the whole load fail: when
    the first marker line is followed, after blank lines only, by another
    marker line, [done] indexes the empty product list and the parse
    raises [IndexError]. *)
Theorem parse_empty_session_raises
    (float : string -> result fval) (self : CriteoDataset.t)
    (marker marker' : string) (blanks rest : list string) :
  Py.nonempty (Py.strip marker) = true ->
  Py.str_in "shared" (Py.strip marker) = true ->
  Py.nonempty (Py.strip marker') = true ->
  Py.str_in "shared" (Py.strip marker') = true ->
  forallb (fun l => negb (Py.nonempty (Py.strip l))) blanks = true ->
  CriteoDataset.parse float self (-1) 0 (marker :: blanks ++ marker' :: rest)
  = Raise IndexError.
Proof.
  intros Hn Hm Hn' Hm' Hblank. unfold CriteoDataset.parse.
  cbn [CriteoDataset.load_loop]. rewrite Hn, Hm.
  cbn [Z.ltb Z.compare Z.eqb negb andb mbind result_bind].
  apply load_loop_empty_session; try assumption; try reflexivity.
  - by eexists.
  - lia.
Qed.

Lemma parse_empty_session_raises_witness :
  CriteoDataset.parse decimal_float (CriteoDataset.Make None [] ∅) (-1) 0
    ("shared |f 1:1" :: ["  "; ""] ++ "shared |f 1:2" :: ["0:0:0.25|2:1"])
  = Raise IndexError.
Proof. by apply parse_empty_session_raises. Defined.

(** ** The loader and the file system *)

Lemma load_artifact (float : string -> result fval)
    (self self1 : CriteoDataset.t) (fs fs1 : gmap string file)
    (filename : string) (stop_idx start_idx : Z) :
  CriteoDataset.load float self fs filename stop_idx start_idx
  = Ok (self1, fs1) ->
  fs1 !! CriteoDataset.pickle_name filename stop_idx
  = Some (PickleFile (CriteoDataset.samples self1))
  /\ (forall path, path <> CriteoDataset.pickle_name filename stop_idx ->
                   fs1 !! path = fs !! path)
  /\ self1 = CriteoDataset.set_samples self (CriteoDataset.samples self1).
Proof.
  unfold CriteoDataset.load.
  destruct (fs !! CriteoDataset.pickle_name filename stop_idx)
    as [[?|pickled|?]|] eqn:Hart; try discriminate.
  - intros [= <- <-]. by repeat split.
  - destruct (fs !! filename) as [[lines|?|?]|]; try discriminate.
    intros H. apply bind_ok in H as (parsed & _ & [= <- <-]).
    split; [apply lookup_insert_eq|]. split; [|reflexivity].
    intros path Hpath. by apply lookup_insert_ne.
Qed.

(** X13.  A successful load changes the file system at most at the path of
    the memoized artifact, which afterwards holds exactly the sessions of
    the dataset; the dataset keeps its hasher and feature dictionary. *)
Theorem load_touches_only_artifact
    (float : string -> result fval) (self self1 : CriteoDataset.t)
    (fs fs1 : gmap string file) (filename : string)
    (stop_idx start_idx : Z) :
  CriteoDataset.load float self fs filename stop_idx start_idx
  = Ok (self1, fs1) ->
  (forall path, path <> CriteoDataset.pickle_name filename stop_idx ->
                fs1 !! path = fs !! path)
  /\ fs1 !! CriteoDataset.pickle_name filename stop_idx
     = Some (PickleFile (CriteoDataset.samples self1))
  /\ CriteoDataset.hasher self1 = CriteoDataset.hasher self
  /\ CriteoDataset.feature_dict self1 = CriteoDataset.feature_dict self.
Proof.
  intros H. apply load_artifact in H as (Hart & Hframe & ->).
  by repeat split.
Qed.

Lemma load_touches_only_artifact_witness :
  let fs : gmap string file :=
    {[ "train" := TextFile ["shared |f 1:1"; "0:0.999:0.5|2:3"; "shared |f"];
       "dict" := JsonFile ∅ ]} in
  let self := CriteoDataset.Make None [] ∅ in
  exists self1 fs1,
    CriteoDataset.load decimal_float self fs "train" 100 0 = Ok (self1, fs1)
    /\ fs1 !! "dict" = Some (JsonFile ∅)
    /\ fs1 !! "train_100.pickle"
       = Some (PickleFile (CriteoDataset.samples self1)).
Proof.
  cbv zeta.
  destruct (CriteoDataset.load decimal_float (CriteoDataset.Make None [] ∅)
              {[ "train" := TextFile ["shared |f 1:1"; "0:0.999:0.5|2:3";
                                      "shared |f"];
                 "dict" := JsonFile ∅ ]} "train" 100 0)
    as [[self1 fs1]|e] eqn:E; [|vm_compute in E; discriminate E].
  exists self1, fs1. split; [reflexivity|].
  destruct (load_touches_only_artifact _ _ _ _ _ _ _ _ E)
    as (Hframe & Hart & _).
  split; [|exact Hart].
  rewrite Hframe; [reflexivity|discriminate].
Defined.

(** X14.  The memoized artifact is keyed by file name and cutoff alone:
    once a load has succeeded, every later load with that file name and
    cutoff returns the sessions of the first one, whatever its start
    offset, dataset and [float], and whatever has become of the source
    file, as long as the artifact is in place. *)
Theorem later_load_returns_first_sessions
    (float float' : string -> result fval) (self self1 self' : CriteoDataset.t)
    (fs fs1 fs2 : gmap string file) (filename : string)
    (stop_idx start_idx start_idx' : Z) :
  CriteoDataset.load float self fs filename stop_idx start_idx
  = Ok (self1, fs1) ->
  fs2 !! CriteoDataset.pickle_name filename stop_idx
  = fs1 !! CriteoDataset.pickle_name filename stop_idx ->
  CriteoDataset.load float' self' fs2 filename stop_idx start_idx'
  = Ok (CriteoDataset.set_samples self' (CriteoDataset.samples self1), fs2).
Proof.
  intros H Hsame. apply load_artifact in H as (Hart & _ & _).
  unfold CriteoDataset.load. by rewrite Hsame, Hart.
Qed.

Lemma later_load_returns_first_sessions_witness :
  let fs : gmap string file :=
    {[ "train" := TextFile ["shared |f 1:1"; "0:0.999:0.5|2:3"; "shared |f";
                            "0:0:0.25|2:1"; "shared |f"] ]} in
  let self := CriteoDataset.Make None [] ∅ in
  exists self1 fs1,
    CriteoDataset.load decimal_float self fs "train" 100 0 = Ok (self1, fs1)
    /\ length (CriteoDataset.samples self1) = 2%nat
    /\ CriteoDataset.load decimal_float self (delete "train" fs1) "train" 100 2
       = Ok (self1, delete "train" fs1).
Proof.
  cbv zeta.
  destruct (CriteoDataset.load decimal_float (CriteoDataset.Make None [] ∅)
              {[ "train" := TextFile ["shared |f 1:1"; "0:0.999:0.5|2:3";
                                      "shared |f"; "0:0:0.25|2:1";
                                      "shared |f"] ]} "train" 100 0)
    as [[self1 fs1]|e] eqn:E; [|vm_compute in E; discriminate E].
  exists self1, fs1. split; [reflexivity|].
  pose proof (load_artifact _ _ _ _ _ _ _ _ E) as (_ & _ & Hself).
  split.
  - unfold CriteoDataset.load in E. cbn in E.
    apply bind_ok in E as (parsed & Hp & [= <- <-]).
    by apply load_loop_length in Hp.
  - rewrite Hself at 1.
    apply (later_load_returns_first_sessions decimal_float decimal_float
             _ _ _ _ fs1 _ "train" 100 0 2 E).
    by rewrite lookup_delete_ne.
Defined.
